(** * The AEC3 subtractor (modules/audio_processing/aec3/subtractor.cc)

    A shallow embedding of [PredictionError], [Subtractor::HandleEchoPathChange]
    and [Subtractor::Process].  C++ [float] is IEEE-754 binary32 and [double]
    is binary64, both taken from the standard library's [SpecFloat] with
    round-to-nearest-even; the classes the subtractor only calls into (the
    FFT, the adaptive filters, the gain computers, the render buffer) are the
    fields of one record of collaborators. *)

From Stdlib Require Import String ZArith List Bool Lia PeanoNat.
From Stdlib Require Import Floats.SpecFloat.
Import ListNotations.

Set Implicit Arguments.

(** ** IEEE-754 arithmetic *)

(** C++ [float], the sample type of every time-domain block and spectrum:
    binary32, 24 bits of precision, infinities at exponent 128. *)
Definition float : Type := spec_float.

Module F32.
Definition prec : Z := 24.
Definition emax : Z := 128.

Definition add (a b : float) : float := SFadd prec emax a b.
Definition sub (a b : float) : float := SFsub prec emax a b.
Definition mul (a b : float) : float := SFmul prec emax a b.
Definition div (a b : float) : float := SFdiv prec emax a b.

(** [a <= b], [a >= b] and [a > b]; each is false when an operand is NaN. *)
Definition le (a b : float) : bool := SFleb a b.
Definition ge (a b : float) : bool := SFleb b a.
Definition gt (a b : float) : bool := SFltb b a.

(** Conversion of an integer (a literal, or a [size_t]) to [float]. *)
Definition of_Z (z : Z) : float := binary_normalize prec emax z 0 false.
Definition of_nat (n : nat) : float := of_Z (Z.of_nat n).

Definition is_nan (a : float) : bool :=
  match a with S754_nan => true | _ => false end.


Definition zero : float := S754_zero false.
End F32.

(** C++ [double]: binary64. *)
Definition double : Type := spec_float.

Module F64.
Definition prec : Z := 53.
Definition emax : Z := 1024.

Definition mul (a b : double) : double := SFmul prec emax a b.
Definition div (a b : double) : double := SFdiv prec emax a b.
Definition gt (a b : double) : bool := SFltb b a.
Definition of_Z (z : Z) : double := binary_normalize prec emax z 0 false.

(** The implicit conversion [float -> double].  Every binary32 value is a
    binary64 value; only the mantissa is renormalised to 53 bits. *)
Definition of_float (a : float) : double :=
  match a with
  | S754_finite s m e => binary_normalize prec emax (cond_Zopp s (Zpos m)) e s
  | _ => a
  end.

(** A decimal literal is the double nearest to the decimal fraction, which
    is what the correctly rounded quotient of the two integers is. *)
Definition literal (num den : Z) : double := div (of_Z num) (of_Z den).
End F64.

Declare Scope f32_scope.
Delimit Scope f32_scope with f32.
Infix "+" := F32.add : f32_scope.
Infix "-" := F32.sub : f32_scope.
Infix "*" := F32.mul : f32_scope.
Infix "/" := F32.div : f32_scope.
Infix "<=?" := F32.le : f32_scope.
Infix ">=?" := F32.ge : f32_scope.
Infix ">?" := F32.gt : f32_scope.

(** ** Constants of aec3_common.h *)

(** Modelled from the spec: aec3_common.h, which declares these constants,
    is not available.  The spec fixes the block size at 64 samples, the
    inverse-transform buffer at twice the block size and a spectrum at
    block size + 1 bins, which the source calls [kFftLengthBy2Plus1]. *)
Definition kFftLengthBy2 : nat := 64.
Definition kFftLengthBy2Plus1 : nat := kFftLengthBy2 + 1.
Definition kFftLength : nat := 2 * kFftLengthBy2.
Definition kBlockSize : nat := kFftLengthBy2.

(** ** Data *)

(** [FftData]: the real and imaginary parts of [kFftLengthBy2Plus1] bins. *)
Record FftData : Type := mkFftData { re : list float; im : list float }.

(** [Aec3Fft::Window]. *)
Inductive Window : Type := kRectangular | kHanning.

(** The transform object [fft_].  Its methods are [const] and the object
    carries no state between calls; [Ifft] fills a
    [std::array<float, kFftLength>]. *)
Record Aec3Fft : Type := mkAec3Fft {
  Ifft : FftData -> list float;
  ZeroPaddedFft : list float -> Window -> FftData;
  Ifft_size : forall S, length (Ifft S) = kFftLength
}.

(** ** Helpers of the C++ standard library and of rtc_base *)

(** [std::transform(first1, last1, first2, d_first, op)] on arrays: the
    elements of the destination are overwritten one by one while the first
    range lasts.  Reading or writing past the end of an array is undefined in
    C++; the walk is given no meaning there and stops. *)
Fixpoint transform (A B C : Type) (op : A -> B -> C)
    (first1 : list A) (first2 : list B) (d_first : list C) : list C :=
  match first1, first2, d_first with
  | a :: r1, b :: r2, _ :: rd => op a b :: transform op r1 r2 rd
  | _, _, _ => d_first
  end.

(** [std::accumulate(first, last, init, op)]. *)
Definition accumulate (A B : Type) (l : list A) (init : B) (op : B -> A -> B) : B :=
  fold_left op l init.

(** Modelled from the spec: rtc::SafeClamp (rtc_base/numerics/safe_minmax.h)
    is not available.  The spec has it clip a sample to the closed range
    between the two bounds: a sample at or below the lower bound becomes the
    lower bound, one at or above the upper bound becomes the upper bound, and
    any other sample is returned as it is.  The two tests are the
    comparisons [x <= min] and [x >= max] of C++. *)
Definition SafeClamp (x lo hi : float) : float :=
  if (x <=? lo)%f32 then lo else if (x >=? hi)%f32 then hi else x.

(** ** PredictionError *)

(** The literals [-32768.f] and [32767.f]. *)
Definition kClipMin : float := F32.of_Z (-32768).
Definition kClipMax : float := F32.of_Z 32767.

(** [constexpr float kScale = 1.0f / kFftLengthBy2;] *)
Definition kScale : float := (F32.of_Z 1 / F32.of_nat kFftLengthBy2)%f32.

(** The error block right after the [std::transform], before the clamp:
    [e[i] = y[i] - tmp[i + kFftLengthBy2] * kScale]. *)
Definition error_before_clip (tmp y e : list float) : list float :=
  transform (fun a b => (a - b * kScale)%f32) y (skipn kFftLengthBy2 tmp) e.

(** The loop over [k < s->size()]: [s[k] = kScale * tmp[k + kFftLengthBy2]]. *)
Definition echo_estimate (tmp s : list float) : list float :=
  map (fun k => (kScale * nth (k + kFftLengthBy2) tmp F32.zero)%f32)
      (seq 0 (length s)).

(** [PredictionError(fft, S, y, e, s)].  [e] and [s] are the arrays behind
    the two pointers as they are on entry ([s = None] is the null pointer);
    the result is their contents on return. *)
Definition PredictionError (fft : Aec3Fft) (S : FftData) (y : list float)
    (e : list float) (s : option (list float))
    : list float * option (list float) :=
  let tmp := Ifft fft S in
  let e := error_before_clip tmp y e in
  let s := option_map (echo_estimate tmp) s in
  (map (fun a => SafeClamp a kClipMin kClipMax) e, s).

(** A sample is within the 16-bit range. *)
Definition in_clip_range (a : float) : bool :=
  (kClipMin <=? a)%f32 && (a <=? kClipMax)%f32.

(** ** Outcome of a call *)

(** A call returns, is aborted by a failed [RTC_DCHECK], or runs into an
    access outside an array, which C++ leaves undefined. *)
Inductive outcome (A : Type) : Type :=
  | Done (a : A)
  | Fatal
  | Undefined.
Arguments Fatal {A}.
Arguments Undefined {A}.

Definition bind (A B : Type) (m : outcome A) (k : A -> outcome B) : outcome B :=
  match m with
  | Done a => k a
  | Fatal => Fatal
  | Undefined => Undefined
  end.

Notation "x <- m ;; k" := (bind m (fun x => k))
  (at level 61, m at next level, right associativity).

(** ** The collaborators *)

(** Modelled from the spec: echo_path_variability.h is not available.
    [EchoPathVariability::DelayAdjustment] has the four values the source
    compares [delay_change] against and the spec's fifth category, no
    change, [kNone]. *)
Inductive DelayAdjustment : Type :=
  | kNone
  | kBufferReadjustment
  | kBufferFlush
  | kDelayReset
  | kNewDetectedDelay.

Definition DelayAdjustment_eqb (a b : DelayAdjustment) : bool :=
  match a, b with
  | kNone, kNone
  | kBufferReadjustment, kBufferReadjustment
  | kBufferFlush, kBufferFlush
  | kDelayReset, kDelayReset
  | kNewDetectedDelay, kNewDetectedDelay => true
  | _, _ => false
  end.

(** [SubtractorOutput]: the fields that subtractor.cc reads and writes
    through [output]. *)
Record SubtractorOutput : Type := mkSubtractorOutput {
  s_main : list float;
  e_main : list float;
  e_shadow : list float;
  E_main : FftData;
  E_main_nonwindowed : FftData;
  E2_main : list float;
  E2_main_nonwindowed : list float;
  E2_shadow : list float
}.

(** The classes the subtractor calls into and does not define.  A [const]
    method is a function of the object; a mutating method returns the new
    object.  An output parameter that the callee fills ([FftData* S], the
    spectrum arrays) is the result; the gain computers additionally get the
    matrix [G] as it is on entry, since [G] aliases the scratch [S]. *)
Record Collaborators : Type := mkCollaborators {
  AdaptiveFirFilter : Type;
  MainFilterUpdateGain : Type;
  ShadowFilterUpdateGain : Type;
  RenderBuffer : Type;
  RenderSignalAnalyzer : Type;
  AecState : Type;
  EchoPathVariability : Type;
  Aec3Optimization : Type;

  (* EchoPathVariability *)
  delay_change : EchoPathVariability -> DelayAdjustment;

  (* AdaptiveFirFilter *)
  Filter : AdaptiveFirFilter -> RenderBuffer -> FftData;
  Adapt : AdaptiveFirFilter -> RenderBuffer -> FftData -> AdaptiveFirFilter;
  SizePartitions : AdaptiveFirFilter -> nat;
  FilterHandleEchoPathChange : AdaptiveFirFilter -> AdaptiveFirFilter;

  (* MainFilterUpdateGain *)
  MainCompute : MainFilterUpdateGain -> list float -> RenderSignalAnalyzer ->
                SubtractorOutput -> AdaptiveFirFilter -> bool -> FftData ->
                MainFilterUpdateGain * FftData;
  MainHandleEchoPathChange :
    MainFilterUpdateGain -> EchoPathVariability -> MainFilterUpdateGain;

  (* ShadowFilterUpdateGain *)
  ShadowCompute : ShadowFilterUpdateGain -> list float -> RenderSignalAnalyzer ->
                  FftData -> nat -> bool -> FftData ->
                  ShadowFilterUpdateGain * FftData;
  ShadowHandleEchoPathChange : ShadowFilterUpdateGain -> ShadowFilterUpdateGain;

  (* RenderBuffer, AecState, FftData *)
  SpectralSum : RenderBuffer -> nat -> list float;
  SaturatedCapture : AecState -> bool;
  Spectrum : FftData -> Aec3Optimization -> list float;

  (* rtc_base/checks.h: whether RTC_DCHECK is compiled in *)
  RTC_DCHECK_IS_ON : bool
}.

Section Subtractor.

Variable C : Collaborators.

(** [RTC_DCHECK_EQ(a, b)] (rtc_base/checks.h) is a debug check: it aborts
    when the values differ in a build that compiles the checks in, and it
    evaluates nothing in a build that leaves them out. *)
Definition RTC_DCHECK_EQ (a b : nat) : outcome unit :=
  if RTC_DCHECK_IS_ON C && negb (a =? b) then Fatal else Done tt.

(** What [data_dumper_] is handed; the dumper is a sink that nothing reads. *)
Inductive DumpEvent : Type :=
  | DumpRaw (name : string) (v : list float)
  | DumpFilter (name : string) (f : AdaptiveFirFilter C).

(** The members of [Subtractor]; [data_dumper_] points to a sink outside the
    object, what it receives is the list of [DumpEvent] of a call. *)
Record Subtractor : Type := mkSubtractor {
  fft_ : Aec3Fft;
  optimization_ : Aec3Optimization C;
  main_filter_ : AdaptiveFirFilter C;
  shadow_filter_ : AdaptiveFirFilter C;
  G_main_ : MainFilterUpdateGain C;
  G_shadow_ : ShadowFilterUpdateGain C;
  converged_filter_ : bool
}.

(** *** HandleEchoPathChange *)

(** The lambda [full_reset]. *)
Definition full_reset (st : Subtractor) (echo_path_variability : EchoPathVariability C)
    : Subtractor :=
  {| fft_ := fft_ st;
     optimization_ := optimization_ st;
     main_filter_ := FilterHandleEchoPathChange C (main_filter_ st);
     shadow_filter_ := FilterHandleEchoPathChange C (shadow_filter_ st);
     G_main_ := MainHandleEchoPathChange C (G_main_ st) echo_path_variability;
     G_shadow_ := ShadowHandleEchoPathChange C (G_shadow_ st);
     converged_filter_ := false |}.

Definition HandleEchoPathChange (st : Subtractor)
    (echo_path_variability : EchoPathVariability C) : Subtractor :=
  let d := delay_change C echo_path_variability in
  if DelayAdjustment_eqb d kBufferFlush || DelayAdjustment_eqb d kDelayReset
  then full_reset st echo_path_variability
  else if DelayAdjustment_eqb d kNewDetectedDelay
  then full_reset st echo_path_variability
  else if DelayAdjustment_eqb d kBufferReadjustment
  then full_reset st echo_path_variability
  else st.

(** *** Process *)

(** [sum_of_squares = [](float a, float b) { return a + b * b; }]. *)
Definition sum_of_squares (a b : float) : float := (a + b * b)%f32.

Definition energy (l : list float) : float := accumulate l F32.zero sum_of_squares.

(** [kBlockSize * 50.f * 50.f], the [size_t] converted to [float]. *)
Definition energy_floor : float :=
  (F32.of_nat kBlockSize * F32.of_Z 50 * F32.of_Z 50)%f32.

(** [e2 > c * y2] with a [double] literal [c]: both sides are doubles. *)
Definition exceeds_fraction (e2 : float) (num den : Z) (y2 : float) : bool :=
  F64.gt (F64.of_float e2) (F64.mul (F64.literal num den) (F64.of_float y2)).

(** The block [if (!converged_filter_) { ... }]: the new value of the flag. *)
Definition convergence_update (converged : bool) (e_main e_shadow y : list float)
    : bool :=
  if negb converged then
    let e2_main := energy e_main in
    let e2_shadow := energy e_shadow in
    let y2 := energy y in
    if (y2 >? energy_floor)%f32
    then exceeds_fraction e2_main 3 10 y2 || exceeds_fraction e2_shadow 1 10 y2
    else converged
  else converged.

(** The value of [X2] that [G_shadow_.Compute] receives: refilled for the
    shadow filter when the two sizes differ at that point, the main filter
    already adapted; otherwise the array filled for the main filter. *)
Definition shadow_X2 (X2 : list float) (render_buffer : RenderBuffer C)
    (shadow_filter main_filter : AdaptiveFirFilter C) : list float :=
  if negb (SizePartitions C shadow_filter =? SizePartitions C main_filter)
  then SpectralSum C render_buffer (SizePartitions C shadow_filter)
  else X2.

Definition Process (st : Subtractor) (render_buffer : RenderBuffer C)
    (capture : list float) (render_signal_analyzer : RenderSignalAnalyzer C)
    (aec_state : AecState C) (output : SubtractorOutput)
    : outcome (Subtractor * SubtractorOutput * list DumpEvent) :=
  _ <- RTC_DCHECK_EQ kBlockSize (length capture) ;;
  if kBlockSize <? length capture then Undefined else
  let y := capture in
  (* Form the output of the main filter. *)
  let S := Filter C (main_filter_ st) render_buffer in
  let '(e_main', s_main') :=
    PredictionError (fft_ st) S y (e_main output) (Some (s_main output)) in
  let s_main' := match s_main' with Some s => s | None => s_main output end in
  let E_main' := ZeroPaddedFft (fft_ st) e_main' kHanning in
  let E_main_nonwindowed' := ZeroPaddedFft (fft_ st) e_main' kRectangular in
  (* Form the output of the shadow filter. *)
  let S := Filter C (shadow_filter_ st) render_buffer in
  let e_shadow' := fst (PredictionError (fft_ st) S y (e_shadow output) None) in
  let E_shadow := ZeroPaddedFft (fft_ st) e_shadow' kHanning in
  let converged := convergence_update (converged_filter_ st) e_main' e_shadow' y in
  (* Compute spectra for future use. *)
  let output' :=
    {| s_main := s_main';
       e_main := e_main';
       e_shadow := e_shadow';
       E_main := E_main';
       E_main_nonwindowed := E_main_nonwindowed';
       E2_main := Spectrum C E_main' (optimization_ st);
       E2_main_nonwindowed := Spectrum C E_main_nonwindowed' (optimization_ st);
       E2_shadow := Spectrum C E_shadow (optimization_ st) |} in
  (* Update the main filter. *)
  let X2 := SpectralSum C render_buffer (SizePartitions C (main_filter_ st)) in
  let '(G_main', G) :=
    MainCompute C (G_main_ st) X2 render_signal_analyzer output' (main_filter_ st)
                (SaturatedCapture C aec_state) S in
  let main_filter' := Adapt C (main_filter_ st) render_buffer G in
  let dump_main :=
    [DumpRaw "aec3_subtractor_G_main" (re G); DumpRaw "aec3_subtractor_G_main" (im G)] in
  (* Update the shadow filter. *)
  let X2 := shadow_X2 X2 render_buffer (shadow_filter_ st) main_filter' in
  let '(G_shadow', G) :=
    ShadowCompute C (G_shadow_ st) X2 render_signal_analyzer E_shadow
                  (SizePartitions C (shadow_filter_ st))
                  (SaturatedCapture C aec_state) G in
  let shadow_filter' := Adapt C (shadow_filter_ st) render_buffer G in
  let dump_shadow :=
    [DumpRaw "aec3_subtractor_G_shadow" (re G);
     DumpRaw "aec3_subtractor_G_shadow" (im G);
     DumpFilter "aec3_subtractor_H_main" main_filter';
     DumpFilter "aec3_subtractor_H_shadow" shadow_filter'] in
  Done ({| fft_ := fft_ st;
           optimization_ := optimization_ st;
           main_filter_ := main_filter';
           shadow_filter_ := shadow_filter';
           G_main_ := G_main';
           G_shadow_ := G_shadow';
           converged_filter_ := converged |},
        output', (dump_main ++ dump_shadow)%list).

End Subtractor.

(** ** Sequences of calls *)

Section Calls.

Variable C : Collaborators.

(** One call on a [Subtractor], with the arguments the caller passes. *)
Inductive Call : Type :=
  | CallProcess (render_buffer : RenderBuffer C) (capture : list float)
      (render_signal_analyzer : RenderSignalAnalyzer C) (aec_state : AecState C)
      (output : SubtractorOutput)
  | CallHandleEchoPathChange (echo_path_variability : EchoPathVariability C).

Definition step (st : Subtractor C) (c : Call) : outcome (Subtractor C) :=
  match c with
  | CallProcess rb capture rsa aec output =>
      r <- Process st rb capture rsa aec output ;; Done (fst (fst r))
  | CallHandleEchoPathChange v => Done (HandleEchoPathChange st v)
  end.

Fixpoint run (st : Subtractor C) (calls : list Call) : outcome (Subtractor C) :=
  match calls with
  | [] => Done st
  | c :: rest => st' <- step st c ;; run st' rest
  end.

(** The variability is in one of the four categories that reset. *)
Definition echo_path_changed (v : EchoPathVariability C) : bool :=
  negb (DelayAdjustment_eqb (delay_change C v) kNone).

(** The call is a [HandleEchoPathChange] of a changed echo path. *)
Definition is_reset (c : Call) : bool :=
  match c with
  | CallProcess _ _ _ _ _ => false
  | CallHandleEchoPathChange v => echo_path_changed v
  end.

(** The call keeps the contract of [Process] on the capture block. *)
Definition block_sized (c : Call) : bool :=
  match c with
  | CallProcess _ capture _ _ _ => length capture =? kBlockSize
  | CallHandleEchoPathChange _ => true
  end.

(** The spectra a [SubtractorOutput] holds. *)
Definition spectra (o : SubtractorOutput) : list FftData :=
  [E_main o; E_main_nonwindowed o].

End Calls.

(** ** Test doubles

    Small executable stand-ins for the collaborators, on which the model can
    be run: a filter that answers with a stored spectrum, gain computers
    that count their calls, a transform that copies samples. *)
Module Stub.

Definition zeros (n : nat) : list float := repeat F32.zero n.

(** The second half of the buffer is the real part of the first bins. *)
Definition ifft (S : FftData) : list float :=
  (zeros kFftLengthBy2 ++
   map (fun k => nth k (re S) F32.zero) (seq 0 kFftLengthBy2))%list.

Definition ifft_size : forall S, length (ifft S) = kFftLength :=
  fun S => eq_refl.

Definition zero_padded_fft (x : list float) (w : Window) : FftData :=
  {| re := (x ++ [F32.zero])%list;
     im := match w with
           | kHanning => zeros kFftLengthBy2Plus1
           | kRectangular => (x ++ [F32.zero])%list
           end |}.

Definition fft : Aec3Fft :=
  {| Ifft := ifft; ZeroPaddedFft := zero_padded_fft; Ifft_size := ifft_size |}.

Record filter : Type := mkFilter { response : FftData; partitions : nat }.

Definition zero_spectrum : FftData :=
  {| re := zeros kFftLengthBy2Plus1; im := zeros kFftLengthBy2Plus1 |}.

Definition constant_spectrum (a : float) : FftData :=
  {| re := repeat a kFftLengthBy2Plus1; im := zeros kFftLengthBy2Plus1 |}.

Definition power (E : FftData) : list float :=
  map (fun ab => (fst ab * fst ab + snd ab * snd ab)%f32) (combine (re E) (im E)).

Definition collaborators (dcheck : bool) : Collaborators :=
  {| AdaptiveFirFilter := filter;
     MainFilterUpdateGain := nat;
     ShadowFilterUpdateGain := nat;
     RenderBuffer := unit;
     RenderSignalAnalyzer := unit;
     AecState := bool;
     EchoPathVariability := DelayAdjustment;
     Aec3Optimization := unit;
     delay_change := fun v => v;
     Filter := fun f _ => response f;
     Adapt := fun f _ G => {| response := G; partitions := partitions f |};
     SizePartitions := partitions;
     FilterHandleEchoPathChange :=
       fun f => {| response := zero_spectrum; partitions := partitions f |};
     MainCompute := fun g X2 _ _ _ _ G => (S g, {| re := X2; im := im G |});
     MainHandleEchoPathChange := fun _ _ => 0;
     ShadowCompute := fun g X2 _ E _ _ _ => (S g, {| re := X2; im := re E |});
     ShadowHandleEchoPathChange := fun _ => 0;
     SpectralSum := fun _ n => repeat (F32.of_nat n) kFftLengthBy2Plus1;
     SaturatedCapture := fun a => a;
     Spectrum := fun E _ => power E;
     RTC_DCHECK_IS_ON := dcheck |}.

Definition output0 : SubtractorOutput :=
  {| s_main := zeros kBlockSize;
     e_main := zeros kBlockSize;
     e_shadow := zeros kBlockSize;
     E_main := zero_spectrum;
     E_main_nonwindowed := zero_spectrum;
     E2_main := zeros kFftLengthBy2Plus1;
     E2_main_nonwindowed := zeros kFftLengthBy2Plus1;
     E2_shadow := zeros kFftLengthBy2Plus1 |}.

(** A subtractor whose filters answer with the constant spectra [a] and [b]
    and have [n] and [m] partitions. *)
Definition subtractor (dcheck : bool) (a b : float) (n m : nat) (converged : bool)
    : Subtractor (collaborators dcheck) :=
  {| fft_ := fft;
     optimization_ := tt : Aec3Optimization (collaborators dcheck);
     main_filter_ := mkFilter (constant_spectrum a) n : AdaptiveFirFilter (collaborators dcheck);
     shadow_filter_ := mkFilter (constant_spectrum b) m : AdaptiveFirFilter (collaborators dcheck);
     G_main_ := 0 : MainFilterUpdateGain (collaborators dcheck);
     G_shadow_ := 0 : ShadowFilterUpdateGain (collaborators dcheck);
     converged_filter_ := converged |}.

(** A capture block of [kBlockSize] samples of value [a]. *)
Definition block (a : float) : list float := repeat a kBlockSize.

(** The largest finite [float], about 3.4e38. *)
Definition FLT_MAX : float := S754_finite false 16777215 104.

End Stub.

(** ** Kinds of calls *)

(** The sample is a zero of either sign. *)
Definition is_zero (a : float) : bool :=
  match a with S754_zero _ => true | _ => false end.

(** The sign bit of the float is clear, or the float is NaN. *)
Definition sign_clear (a : float) : bool :=
  match a with
  | S754_zero s | S754_infinity s | S754_finite s _ _ => negb s
  | S754_nan => true
  end.

Section CallKinds.

Variable C : Collaborators.

(** The call is a [Process] whose capture energy passes the floor of the
    convergence test, [y2 > kBlockSize * 50.f * 50.f]. *)
Definition above_floor (c : Call C) : bool :=
  match c with
  | CallProcess _ _ capture _ _ _ => (energy capture >? energy_floor)%f32
  | CallHandleEchoPathChange _ _ => false
  end.

(** Every capture sample of the call is zero. *)
Definition silent (c : Call C) : bool :=
  match c with
  | CallProcess _ _ capture _ _ _ => forallb is_zero capture
  | CallHandleEchoPathChange _ _ => true
  end.

End CallKinds.

(** * Properties *)

(** ** The constants *)

Lemma kClipMin_value : kClipMin = S754_finite true 8388608 (-8).
Proof. reflexivity. Qed.

Lemma kClipMax_value : kClipMax = S754_finite false 16776704 (-9).
Proof. reflexivity. Qed.

(** [kScale] is 2^-6 = 1/64, the reciprocal of the block size. *)
Lemma kScale_value : kScale = S754_finite false 8388608 (-29).
Proof. vm_compute. reflexivity. Qed.

(** The floor of the convergence test is exactly 64 * 2500 = 160000. *)
Lemma energy_floor_value :
  energy_floor = F32.of_Z (Z.of_nat kBlockSize * 2500)
  /\ energy_floor = S754_finite false 10240000 (-6).
Proof. split; vm_compute; reflexivity. Qed.

(** The doubles behind the literals [0.3] and [0.1]. *)
Lemma literal_0_3 : F64.literal 3 10 = S754_finite false 5404319552844595 (-54).
Proof. vm_compute. reflexivity. Qed.

Lemma literal_0_1 : F64.literal 1 10 = S754_finite false 7205759403792794 (-56).
Proof. vm_compute. reflexivity. Qed.

(** ** Comparison *)

Lemma SFcompare_antisym (a b : spec_float) (c : comparison) :
  SFcompare a b = Some c -> SFcompare b a = Some (CompOpp c).
Proof.
  destruct a as [sa|sa| |sa ma ea], b as [sb|sb| |sb mb eb]; simpl;
    try discriminate;
    try (destruct sa; intros [= <-]; reflexivity);
    try (destruct sb; intros [= <-]; reflexivity);
    try (destruct sa, sb; intros [= <-]; reflexivity).
  destruct sa, sb; intros [= <-]; try reflexivity;
    rewrite (Z.compare_antisym ea eb);
    destruct (ea ?= eb)%Z; simpl; try reflexivity;
    rewrite (Pos.compare_cont_antisym ma mb Eq); reflexivity.
Qed.

Lemma SFcompare_nan_free (a b : spec_float) :
  F32.is_nan a = false -> F32.is_nan b = false -> exists c, SFcompare a b = Some c.
Proof.
  destruct a, b; simpl; try discriminate; intros _ _; eexists; reflexivity.
Qed.

(** When neither operand is NaN, [a <= b] fails only if [b <= a] holds. *)
Lemma le_total (a b : float) :
  F32.is_nan a = false -> F32.is_nan b = false ->
  F32.le a b = false -> F32.le b a = true.
Proof.
  intros Ha Hb. unfold F32.le, SFleb.
  destruct (SFcompare_nan_free a b Ha Hb) as [c Hc].
  rewrite Hc, (SFcompare_antisym _ _ Hc).
  destruct c; simpl; congruence.
Qed.

Lemma le_not_gt (a b : float) : F32.le a b = true -> F32.gt a b = false.
Proof.
  unfold F32.le, F32.gt, SFleb, SFltb.
  destruct (SFcompare a b) as [c|] eqn:Hc; [|discriminate].
  rewrite (SFcompare_antisym _ _ Hc). destruct c; simpl; congruence.
Qed.

(** ** SafeClamp *)

Lemma SafeClamp_nan : SafeClamp S754_nan kClipMin kClipMax = S754_nan.
Proof. reflexivity. Qed.

Lemma SafeClamp_is_nan (x : float) :
  F32.is_nan (SafeClamp x kClipMin kClipMax) = F32.is_nan x.
Proof.
  unfold SafeClamp.
  destruct (F32.le x kClipMin) eqn:Hlo.
  - destruct x; simpl in *; try reflexivity; discriminate.
  - destruct (F32.ge x kClipMax) eqn:Hhi; [|reflexivity].
    destruct x; simpl in *; try reflexivity; discriminate.
Qed.

Lemma SafeClamp_in_range (x : float) :
  F32.is_nan x = false -> in_clip_range (SafeClamp x kClipMin kClipMax) = true.
Proof.
  intros Hx. unfold SafeClamp.
  destruct (F32.le x kClipMin) eqn:Hlo; [reflexivity|].
  destruct (F32.ge x kClipMax) eqn:Hhi; [reflexivity|].
  unfold in_clip_range. apply andb_true_intro. split.
  - apply le_total; auto.
  - apply le_total; auto.
Qed.

Lemma in_clip_range_not_nan (x : float) :
  in_clip_range x = true -> F32.is_nan x = false.
Proof. destruct x; simpl; auto. Qed.

(** ** Rounding never makes a NaN *)

Section Rounding.

Variables prec emax : Z.









Lemma SFmul_comm (a b : spec_float) : SFmul prec emax a b = SFmul prec emax b a.
Proof.
  destruct a as [sa|sa| |sa ma ea], b as [sb|sb| |sb mb eb]; simpl;
    try reflexivity; try (rewrite xorb_comm; reflexivity).
  rewrite xorb_comm, Pos.mul_comm, Z.add_comm. reflexivity.
Qed.

End Rounding.


(** ** std::transform on lists *)

Section Transform.

Variables A B C : Type.
Variable op : A -> B -> C.

Lemma transform_length (l1 : list A) (l2 : list B) (d : list C) :
  length (transform op l1 l2 d) = length d.
Proof.
  revert l2 d. induction l1 as [|a l1 IH]; intros [|b l2] [|c d]; simpl; auto.
Qed.

Lemma transform_nth (l1 : list A) (l2 : list B) (d : list C) (i : nat)
    (da : A) (db : B) (dc : C) :
  i < length l1 -> i < length l2 -> i < length d ->
  nth i (transform op l1 l2 d) dc = op (nth i l1 da) (nth i l2 db).
Proof.
  revert l2 d i.
  induction l1 as [|a l1 IH]; intros [|b l2] [|c d] i; simpl; try lia.
  destruct i as [|i]; [reflexivity|].
  intros H1 H2 H3. apply IH; lia.
Qed.


End Transform.

Lemma nth_skipn_add (A : Type) (n i : nat) (l : list A) (d : A) :
  nth i (skipn n l) d = nth (i + n) l d.
Proof.
  revert l. induction n as [|n IH]; intros l.
  - rewrite Nat.add_0_r. reflexivity.
  - destruct l as [|a l]; simpl.
    + destruct i; reflexivity.
    + rewrite IH, Nat.add_succ_r. reflexivity.
Qed.

Lemma map_nth_in (A B : Type) (f : A -> B) (l : list A) (i : nat) (da : A) (db : B) :
  i < length l -> nth i (map f l) db = f (nth i l da).
Proof.
  intros Hi. rewrite (nth_indep _ db (f da)) by (rewrite length_map; exact Hi).
  apply map_nth.
Qed.

(** ** PredictionError *)

Lemma PredictionError_e (fft : Aec3Fft) (S : FftData) (y e : list float)
    (s : option (list float)) :
  fst (PredictionError fft S y e s) =
  map (fun a => SafeClamp a kClipMin kClipMax) (error_before_clip (Ifft fft S) y e).
Proof. reflexivity. Qed.

Lemma PredictionError_s (fft : Aec3Fft) (S : FftData) (y e : list float)
    (s : option (list float)) :
  snd (PredictionError fft S y e s) = option_map (echo_estimate (Ifft fft S)) s.
Proof. reflexivity. Qed.

Lemma PredictionError_length (fft : Aec3Fft) (S : FftData) (y e : list float)
    (s : option (list float)) :
  length (fst (PredictionError fft S y e s)) = length e.
Proof.
  rewrite PredictionError_e, length_map. apply transform_length.
Qed.

(** Every sample of the error block is within the range or is a NaN that
    the subtraction has already produced. *)
Lemma clamped_sample_in_range_or_nan (fft : Aec3Fft) (S : FftData)
    (y e : list float) (s : option (list float)) (i : nat) :
  i < length e ->
  let before := nth i (error_before_clip (Ifft fft S) y e) F32.zero in
  let after := nth i (fst (PredictionError fft S y e s)) F32.zero in
  (F32.is_nan before = false /\ in_clip_range after = true)
  \/ (before = S754_nan /\ after = S754_nan).
Proof.
  intros Hi before after. subst before after.
  rewrite PredictionError_e.
  rewrite (@map_nth_in float float _ _ i F32.zero F32.zero)
    by (unfold error_before_clip; rewrite transform_length; exact Hi).
  generalize (nth i (error_before_clip (Ifft fft S) y e) F32.zero). intros a.
  destruct (F32.is_nan a) eqn:Hn.
  - right. destruct a; try discriminate. split; reflexivity.
  - left. split; [reflexivity|]. apply SafeClamp_in_range, Hn.
Qed.

Lemma error_before_clip_nth (tmp y e : list float) (i : nat) :
  length tmp = kFftLength -> length y = kBlockSize -> length e = kBlockSize ->
  i < kBlockSize ->
  nth i (error_before_clip tmp y e) F32.zero =
  (nth i y F32.zero - nth (i + kFftLengthBy2) tmp F32.zero * kScale)%f32.
Proof.
  intros Ht Hy He Hi. unfold error_before_clip.
  rewrite (@transform_nth _ _ _ _ _ _ _ i F32.zero F32.zero F32.zero).
  - rewrite nth_skipn_add. reflexivity.
  - lia.
  - rewrite length_skipn, Ht. unfold kFftLength, kBlockSize in *. lia.
  - lia.
Qed.

Lemma echo_estimate_nth (tmp s : list float) (k : nat) :
  k < length s ->
  nth k (echo_estimate tmp s) F32.zero =
  (kScale * nth (k + kFftLengthBy2) tmp F32.zero)%f32.
Proof.
  intros Hk. unfold echo_estimate.
  rewrite (@map_nth_in _ _ _ _ k 0 F32.zero) by (rewrite length_seq; exact Hk).
  rewrite seq_nth by exact Hk. reflexivity.
Qed.




(** C4, as the code has it: with [tmp] the [2 * kBlockSize] samples of the
    inverse transform, the error before the clamp is
    [y[i] - tmp[i + kBlockSize] * kScale] with [kScale = 1 / kBlockSize]
    (1/64), the clamp is applied to exactly these values, and a requested
    echo estimate receives the same scaled samples of the second half. *)
Theorem PredictionError_overlap_save (fft : Aec3Fft) (S : FftData)
    (y e s : list float) (i : nat) :
  length y = kBlockSize -> length e = kBlockSize -> length s = kBlockSize ->
  i < kBlockSize ->
  let tmp := Ifft fft S in
  let scaled := (nth (i + kBlockSize) tmp F32.zero * kScale)%f32 in
  length tmp = 2 * kBlockSize
  /\ kScale = (F32.of_Z 1 / F32.of_nat kBlockSize)%f32
  /\ nth i (error_before_clip tmp y e) F32.zero = (nth i y F32.zero - scaled)%f32
  /\ nth i (fst (PredictionError fft S y e (Some s))) F32.zero =
     SafeClamp (nth i y F32.zero - scaled)%f32 kClipMin kClipMax
  /\ exists s', snd (PredictionError fft S y e (Some s)) = Some s'
                /\ length s' = kBlockSize
                /\ nth i s' F32.zero = scaled.
Proof.
  intros Hy He Hs Hi. cbv zeta.
  assert (Hb : nth i (error_before_clip (Ifft fft S) y e) F32.zero =
               (nth i y F32.zero
                - nth (i + kBlockSize) (Ifft fft S) F32.zero * kScale)%f32)
    by (apply error_before_clip_nth; auto; apply Ifft_size).
  split; [apply Ifft_size|]. split; [reflexivity|]. split; [exact Hb|]. split.
  - rewrite PredictionError_e.
    rewrite (@map_nth_in float float _ _ i F32.zero F32.zero), Hb; [reflexivity|].
    unfold error_before_clip. rewrite transform_length. lia.
  - exists (echo_estimate (Ifft fft S) s). split; [reflexivity|]. split.
    + unfold echo_estimate. rewrite length_map, length_seq. exact Hs.
    + rewrite echo_estimate_nth by lia. apply SFmul_comm.
Qed.

Lemma PredictionError_overlap_save_witness :
  nth 0 (error_before_clip (Ifft Stub.fft (Stub.constant_spectrum (F32.of_Z 128)))
           (Stub.block (F32.of_Z 1000)) (Stub.zeros kBlockSize)) F32.zero
  = F32.of_Z 998.
Proof.
  pose proof (PredictionError_overlap_save Stub.fft
                (Stub.constant_spectrum (F32.of_Z 128))
                (Stub.block (F32.of_Z 1000)) (Stub.zeros kBlockSize)
                (Stub.zeros kBlockSize) (i := 0)
                eq_refl eq_refl eq_refl (Nat.lt_0_succ _)) as H.
  destruct H as (_ & _ & H & _). rewrite H. vm_compute. reflexivity.
Defined.

(** C4, as the spec states it, fails: the scale is not 1/(2 * block size).
    With a transform sample of 128 and a zero capture sample the error is
    -2, not -1. *)
Lemma PredictionError_scale_not_by_fft_length :
  ~ (forall (fft : Aec3Fft) (S : FftData) (y e : list float) (i : nat),
       length y = kBlockSize -> length e = kBlockSize -> i < kBlockSize ->
       nth i (error_before_clip (Ifft fft S) y e) F32.zero =
       (nth i y F32.zero
        - nth (i + kBlockSize) (Ifft fft S) F32.zero
          * (F32.of_Z 1 / F32.of_nat (2 * kBlockSize)))%f32).
Proof.
  intros H.
  specialize (H Stub.fft (Stub.constant_spectrum (F32.of_Z 128))
                (Stub.block F32.zero) (Stub.zeros kBlockSize) 0
                eq_refl eq_refl (Nat.lt_0_succ _)).
  vm_compute in H. discriminate.
Qed.

(** C10: the clamp is applied to [e] only.  Whenever a scaled sample of the
    inverse transform is outside [-32768, 32767], the echo estimate (the
    array [Process] passes is [output.s_main]) holds that sample as it is,
    outside the range, while the error sample at the same index is inside
    the range or NaN. *)
Theorem echo_estimate_not_clipped (fft : Aec3Fft) (S : FftData)
    (y e s : list float) (k : nat) :
  k < length s -> k < length e ->
  in_clip_range (kScale * nth (k + kFftLengthBy2) (Ifft fft S) F32.zero)%f32 = false ->
  exists s', snd (PredictionError fft S y e (Some s)) = Some s'
             /\ nth k s' F32.zero =
                (kScale * nth (k + kFftLengthBy2) (Ifft fft S) F32.zero)%f32
             /\ in_clip_range (nth k s' F32.zero) = false
             /\ (in_clip_range (nth k (fst (PredictionError fft S y e (Some s))) F32.zero)
                 = true
                 \/ nth k (fst (PredictionError fft S y e (Some s))) F32.zero = S754_nan).
Proof.
  intros Hk Hke Hout. exists (echo_estimate (Ifft fft S) s).
  rewrite echo_estimate_nth by exact Hk.
  repeat split; auto.
  destruct (@clamped_sample_in_range_or_nan fft S y e (Some s) k Hke)
    as [[_ H]|[_ H]]; auto.
Qed.

Lemma echo_estimate_not_clipped_witness :
  exists s',
    snd (PredictionError Stub.fft (Stub.constant_spectrum (F32.of_Z 4194304))
           (Stub.block F32.zero) (Stub.zeros kBlockSize)
           (Some (Stub.zeros kBlockSize))) = Some s'
    /\ nth 0 s' F32.zero = F32.of_Z 65536
    /\ in_clip_range (nth 0 s' F32.zero) = false.
Proof.
  destruct (echo_estimate_not_clipped Stub.fft
              (Stub.constant_spectrum (F32.of_Z 4194304))
              (Stub.block F32.zero) (Stub.zeros kBlockSize)
              (Stub.zeros kBlockSize) (k := 0)
              (Nat.lt_0_succ _) (Nat.lt_0_succ _) eq_refl)
    as (s' & Hs & Hv & Hr & _).
  exists s'. split; [exact Hs|]. split; [|exact Hr].
  rewrite Hv. vm_compute. reflexivity.
Defined.

(** ** Signs of rounded results and of energies *)

Lemma binary_round_aux_sign (prec emax : Z) (sx : bool) (mx ex : Z) (lx : location) :
  match binary_round_aux prec emax sx mx ex lx with
  | S754_zero s | S754_infinity s | S754_finite s _ _ => s = sx
  | S754_nan => True
  end.
Proof.
  unfold binary_round_aux.
  destruct (shr_fexp prec emax mx ex lx) as [mrs' e'].
  destruct (shr_fexp prec emax _ e' loc_Exact) as [mrs'' e''].
  destruct (shr_m mrs'') as [|p|p]; [reflexivity| |exact I].
  destruct (e'' <=? emax - prec)%Z; reflexivity.
Qed.

Lemma binary_round_aux_sign_clear (prec emax : Z) (mx ex : Z) (lx : location) :
  sign_clear (binary_round_aux prec emax false mx ex lx) = true.
Proof.
  pose proof (binary_round_aux_sign prec emax false mx ex lx) as H.
  destruct (binary_round_aux prec emax false mx ex lx); simpl; subst; reflexivity.
Qed.

Lemma binary_round_sign_clear (prec emax : Z) (m : positive) (e : Z) :
  sign_clear (binary_round prec emax false m e) = true.
Proof.
  unfold binary_round. destruct (shl_align m e _) as [mz ez].
  apply binary_round_aux_sign_clear.
Qed.

Lemma square_sign_clear (b : float) : sign_clear (b * b)%f32 = true.
Proof.
  destruct b as [[|]|[|]| |[|] m e]; try reflexivity;
    apply binary_round_aux_sign_clear.
Qed.

Lemma add_sign_clear (a b : float) :
  sign_clear a = true -> sign_clear b = true -> sign_clear (a + b)%f32 = true.
Proof.
  destruct a as [[|]|[|]| |[|] ma ea], b as [[|]|[|]| |[|] mb eb];
    simpl; try discriminate; intros _ _; try reflexivity.
  unfold F32.add, SFadd, cond_Zopp, binary_normalize.
  destruct (shl_align ma ea _) as [ma' ea'], (shl_align mb eb _) as [mb' eb'].
  simpl. apply binary_round_sign_clear.
Qed.

(** An energy is a sum of squares: it is never negative. *)
Lemma energy_sign_clear (l : list float) : sign_clear (energy l) = true.
Proof.
  unfold energy, accumulate.
  assert (H : sign_clear F32.zero = true) by reflexivity.
  revert H. generalize F32.zero.
  induction l as [|b l IH]; intros acc Hacc; simpl; [exact Hacc|].
  apply IH. unfold sum_of_squares.
  apply add_sign_clear; [exact Hacc|apply square_sign_clear].
Qed.

Lemma of_float_sign_clear (a : float) :
  sign_clear a = true -> sign_clear (F64.of_float a) = true.
Proof.
  destruct a as [[|]|[|]| |[|] m e]; simpl; try discriminate; intros _;
    try reflexivity.
  apply binary_round_sign_clear.
Qed.

(** No fraction of a capture energy is exceeded by an error energy of zero. *)
Lemma exceeds_fraction_zero_error (e2 y2 : float) :
  is_zero e2 = true -> sign_clear y2 = true ->
  exceeds_fraction e2 3 10 y2 = false /\ exceeds_fraction e2 1 10 y2 = false.
Proof.
  intros He Hy. unfold exceeds_fraction. rewrite literal_0_3, literal_0_1.
  pose proof (of_float_sign_clear _ Hy) as Hd.
  destruct e2 as [se| | |]; try discriminate. simpl F64.of_float at 1 3.
  unfold F64.gt, F64.mul, SFltb.
  destruct (F64.of_float y2) as [[|]|[|]| |[|] m e]; try discriminate Hd;
    split; try reflexivity;
    match goal with
    | |- context [SFmul ?p ?q ?a ?b] =>
        pose proof (binary_round_aux_sign_clear p q) as Hs;
        unfold SFmul; cbn [xorb];
        match goal with
        | |- context [binary_round_aux p q false ?mx ?ex ?lx] =>
            specialize (Hs mx ex lx);
            destruct (binary_round_aux p q false mx ex lx) as [[|]|[|]| |[|] ? ?];
            try discriminate Hs; destruct se; reflexivity
        end
    end.
Qed.

(** Around the threshold: of a capture energy of 1000000, an error energy
    of 300001 exceeds 0.3 times it, 300000 and 299999 do not; 100001 exceeds
    0.1 times it, 100000 does not. *)
Lemma exceeds_fraction_boundary :
  exceeds_fraction (F32.of_Z 300001) 3 10 (F32.of_Z 1000000) = true
  /\ exceeds_fraction (F32.of_Z 300000) 3 10 (F32.of_Z 1000000) = false
  /\ exceeds_fraction (F32.of_Z 299999) 3 10 (F32.of_Z 1000000) = false
  /\ exceeds_fraction (F32.of_Z 100001) 1 10 (F32.of_Z 1000000) = true
  /\ exceeds_fraction (F32.of_Z 100000) 1 10 (F32.of_Z 1000000) = false.
Proof. repeat split; vm_compute; reflexivity. Qed.

(** ** Process and HandleEchoPathChange *)

Section SubtractorFacts.

Variable C : Collaborators.

Implicit Types (st : Subtractor C) (output : SubtractorOutput).

(** A block-sized capture passes the check whether or not it is compiled in. *)
Lemma RTC_DCHECK_EQ_same (n : nat) : RTC_DCHECK_EQ C n n = Done tt.
Proof.
  unfold RTC_DCHECK_EQ. rewrite Nat.eqb_refl, andb_false_r. reflexivity.
Qed.

Ltac enter_Process Hlen :=
  unfold Process; rewrite Hlen, RTC_DCHECK_EQ_same; cbn [bind];
  rewrite Nat.ltb_irrefl;
  cbv beta iota zeta delta [PredictionError fst snd option_map];
  repeat match goal with
         | |- context [MainCompute C ?g ?x ?r ?o ?f ?b ?s] =>
             destruct (MainCompute C g x r o f b s) as [? ?] eqn:?
         | |- context [ShadowCompute C ?g ?x ?r ?e ?n ?b ?s] =>
             destruct (ShadowCompute C g x r e n b s) as [? ?] eqn:?
         end.

(** [Process] returns on every block-sized capture. *)
Lemma Process_returns st (rb : RenderBuffer C) (capture : list float)
    (rsa : RenderSignalAnalyzer C) (aec : AecState C) output :
  length capture = kBlockSize ->
  exists st' output' dumps,
    Process st rb capture rsa aec output = Done (st', output', dumps).
Proof.
  intros Hlen. enter_Process Hlen. eauto.
Qed.

(** What a returning call leaves in the subtractor and in the output
    record, read off the body of [Process] line by line. *)
Lemma Process_Done st (rb : RenderBuffer C) (capture : list float)
    (rsa : RenderSignalAnalyzer C) (aec : AecState C) output
    st' output' dumps :
  Process st rb capture rsa aec output = Done (st', output', dumps) ->
  let S_main := Filter C (main_filter_ st) rb in
  let S_shadow := Filter C (shadow_filter_ st) rb in
  let X2_main := SpectralSum C rb (SizePartitions C (main_filter_ st)) in
  let main := MainCompute C (G_main_ st) X2_main rsa output' (main_filter_ st)
                (SaturatedCapture C aec) S_shadow in
  let E_shadow := ZeroPaddedFft (fft_ st) (e_shadow output') kHanning in
  let shadow := ShadowCompute C (G_shadow_ st)
                  (shadow_X2 C X2_main rb (shadow_filter_ st) (main_filter_ st'))
                  rsa E_shadow (SizePartitions C (shadow_filter_ st))
                  (SaturatedCapture C aec) (snd main) in
  (* the output record *)
  e_main output' =
    fst (PredictionError (fft_ st) S_main capture (e_main output) (Some (s_main output)))
  /\ s_main output' = echo_estimate (Ifft (fft_ st) S_main) (s_main output)
  /\ e_shadow output' =
     fst (PredictionError (fft_ st) S_shadow capture (e_shadow output) None)
  /\ E_main output' = ZeroPaddedFft (fft_ st) (e_main output') kHanning
  /\ E_main_nonwindowed output' = ZeroPaddedFft (fft_ st) (e_main output') kRectangular
  /\ E2_main output' = Spectrum C (E_main output') (optimization_ st)
  /\ E2_main_nonwindowed output' =
     Spectrum C (E_main_nonwindowed output') (optimization_ st)
  /\ E2_shadow output' = Spectrum C E_shadow (optimization_ st)
  (* the subtractor *)
  /\ fft_ st' = fft_ st
  /\ optimization_ st' = optimization_ st
  /\ converged_filter_ st' =
     convergence_update (converged_filter_ st) (e_main output') (e_shadow output') capture
  /\ G_main_ st' = fst main
  /\ main_filter_ st' = Adapt C (main_filter_ st) rb (snd main)
  /\ G_shadow_ st' = fst shadow
  /\ shadow_filter_ st' = Adapt C (shadow_filter_ st) rb (snd shadow).
Proof.
  unfold Process, RTC_DCHECK_EQ.
  destruct (RTC_DCHECK_IS_ON C && negb (kBlockSize =? length capture));
    [discriminate|]. cbn [bind].
  destruct (kBlockSize <? length capture); [discriminate|].
  cbv beta iota zeta delta [PredictionError fst snd option_map].
  destruct (MainCompute C _ _ _ _ _ _ _) as [G_main' G] eqn:HM.
  destruct (ShadowCompute C _ _ _ _ _ _ _) as [G_shadow' G'] eqn:HS.
  intros [= <- <- <-]. cbn [e_main s_main e_shadow E_main E_main_nonwindowed
    E2_main E2_main_nonwindowed E2_shadow fft_ optimization_ converged_filter_
    G_main_ main_filter_ G_shadow_ shadow_filter_].
  rewrite HM. cbn [fst snd]. rewrite HS. cbn [fst snd].
  repeat split; reflexivity.
Qed.

Lemma convergence_update_true (e_main e_shadow y : list float) :
  convergence_update true e_main e_shadow y = true.
Proof. reflexivity. Qed.

Lemma convergence_update_false (e_main e_shadow y : list float) :
  convergence_update false e_main e_shadow y =
  if (energy y >? energy_floor)%f32
  then exceeds_fraction (energy e_main) 3 10 (energy y)
       || exceeds_fraction (energy e_shadow) 1 10 (energy y)
  else false.
Proof. reflexivity. Qed.

(** C1: in a call that starts with the flag false, with [y2], [e2_main] and
    [e2_shadow] the binary32 sums of squares of the capture block and of the
    two error blocks that the call returns: the flag can only become true if
    [y2 > 160000] (= [kBlockSize * 2500]); above that floor it becomes the
    outcome of [e2_main > 0.3 * y2 || e2_shadow > 0.1 * y2], the products and
    the comparisons being those of binary64 with the doubles nearest to 0.3
    and 0.1; at or below the floor it stays as it was.  Two error energies of
    zero never set it.  Everything is stated on the IEEE-754 operations
    themselves. *)
Theorem Process_convergence_test st (rb : RenderBuffer C) (capture : list float)
    (rsa : RenderSignalAnalyzer C) (aec : AecState C) output :
  length capture = kBlockSize ->
  converged_filter_ st = false ->
  exists st' output' dumps,
    Process st rb capture rsa aec output = Done (st', output', dumps)
    /\ let sum_of_squares32 := fun l : list spec_float =>
         fold_left (fun a b => SFadd 24 128 a (SFmul 24 128 b b)) l (S754_zero false) in
       let to_double := fun x : spec_float =>
         match x with
         | S754_finite s m e => binary_normalize 53 1024 (cond_Zopp s (Zpos m)) e s
         | _ => x
         end in
       let floor := S754_finite false 10240000 (-6) in
       let c0_3 := S754_finite false 5404319552844595 (-54) in
       let c0_1 := S754_finite false 7205759403792794 (-56) in
       let y2 := sum_of_squares32 capture in
       let e2_main := sum_of_squares32 (e_main output') in
       let e2_shadow := sum_of_squares32 (e_shadow output') in
       (floor = binary_normalize 24 128 (Z.of_nat kBlockSize * 2500) 0 false
        /\ c0_3 = SFdiv 53 1024 (binary_normalize 53 1024 3 0 false)
                               (binary_normalize 53 1024 10 0 false)
        /\ c0_1 = SFdiv 53 1024 (binary_normalize 53 1024 1 0 false)
                               (binary_normalize 53 1024 10 0 false))
       /\ (converged_filter_ st' = true -> SFltb floor y2 = true)
       /\ (SFltb floor y2 = true ->
           converged_filter_ st' =
           SFltb (SFmul 53 1024 c0_3 (to_double y2)) (to_double e2_main)
           || SFltb (SFmul 53 1024 c0_1 (to_double y2)) (to_double e2_shadow))
       /\ (SFleb y2 floor = true ->
           converged_filter_ st' = converged_filter_ st)
       /\ (SFltb floor y2 = false ->
           converged_filter_ st' = converged_filter_ st)
       /\ (is_zero e2_main = true -> is_zero e2_shadow = true ->
           converged_filter_ st' = false).
Proof.
  intros Hlen Hconv.
  destruct (Process_returns st rb capture rsa aec output Hlen) as (st' & output' & dumps & HP).
  exists st', output', dumps. split; [exact HP|].
  apply Process_Done in HP. cbv zeta in HP.
  destruct HP as (_ & _ & _ & _ & _ & _ & _ & _ & _ & _ & Hc & _).
  rewrite Hconv, convergence_update_false in Hc.
  assert (Hpin : is_zero (energy (e_main output')) = true ->
                 is_zero (energy (e_shadow output')) = true ->
                 converged_filter_ st' = false).
  { intros Hm Hs. rewrite Hc.
    destruct (energy capture >? energy_floor)%f32; [|reflexivity].
    rewrite (proj1 (exceeds_fraction_zero_error _ _ Hm (energy_sign_clear capture))).
    rewrite (proj2 (exceeds_fraction_zero_error _ _ Hs (energy_sign_clear capture))).
    reflexivity. }
  assert (Hle : F32.le (energy capture) energy_floor = true ->
                (energy capture >? energy_floor)%f32 = false)
    by apply le_not_gt.
  unfold exceeds_fraction in Hc.
  rewrite literal_0_3, literal_0_1, (proj2 energy_floor_value) in Hc.
  rewrite (proj2 energy_floor_value) in Hle.
  rewrite Hconv. cbv zeta.
  split; [repeat split; vm_compute; reflexivity|].
  change (fold_left (fun a b => SFadd 24 128 a (SFmul 24 128 b b)) capture
            (S754_zero false)) with (energy capture).
  change (fold_left (fun a b => SFadd 24 128 a (SFmul 24 128 b b)) (e_main output')
            (S754_zero false)) with (energy (e_main output')).
  change (fold_left (fun a b => SFadd 24 128 a (SFmul 24 128 b b)) (e_shadow output')
            (S754_zero false)) with (energy (e_shadow output')).
  change (SFltb (S754_finite false 10240000 (-6)) (energy capture))
    with (energy capture >? S754_finite false 10240000 (-6))%f32.
  split; [|split; [|split; [|split]]].
  - rewrite Hc.
    destruct (energy capture >? S754_finite false 10240000 (-6))%f32;
      [reflexivity|discriminate].
  - intros Hgt. rewrite Hc, Hgt. reflexivity.
  - intros H. rewrite Hc, (Hle H). reflexivity.
  - intros H. rewrite Hc, H. reflexivity.
  - exact Hpin.
Qed.

(** *** HandleEchoPathChange *)

Lemma echo_path_changed_cases (v : EchoPathVariability C) :
  echo_path_changed C v = true <->
  In (delay_change C v) [kBufferFlush; kDelayReset; kNewDetectedDelay; kBufferReadjustment].
Proof.
  unfold echo_path_changed. destruct (delay_change C v); simpl; split;
    intros H; try discriminate; try reflexivity; try tauto;
    repeat (destruct H as [H|H]; try discriminate H); contradiction.
Qed.

Lemma HandleEchoPathChange_changed st (v : EchoPathVariability C) :
  echo_path_changed C v = true -> HandleEchoPathChange st v = full_reset st v.
Proof.
  unfold echo_path_changed, HandleEchoPathChange.
  destruct (delay_change C v); simpl; intros H; try reflexivity; discriminate.
Qed.

Lemma HandleEchoPathChange_unchanged st (v : EchoPathVariability C) :
  echo_path_changed C v = false -> HandleEchoPathChange st v = st.
Proof.
  unfold echo_path_changed, HandleEchoPathChange.
  destruct (delay_change C v); simpl; intros H; try reflexivity; discriminate.
Qed.

(** C6: for each of the four changed categories [HandleEchoPathChange] does
    the same full reset: both filters are reset, the main gain computer is
    reset with the variability, the shadow gain computer with nothing, and
    the flag is false; the transform and the optimization are kept. *)
Theorem HandleEchoPathChange_full_reset st (v : EchoPathVariability C) :
  In (delay_change C v)
     [kBufferFlush; kDelayReset; kNewDetectedDelay; kBufferReadjustment] ->
  let st' := HandleEchoPathChange st v in
  main_filter_ st' = FilterHandleEchoPathChange C (main_filter_ st)
  /\ shadow_filter_ st' = FilterHandleEchoPathChange C (shadow_filter_ st)
  /\ G_main_ st' = MainHandleEchoPathChange C (G_main_ st) v
  /\ G_shadow_ st' = ShadowHandleEchoPathChange C (G_shadow_ st)
  /\ converged_filter_ st' = false
  /\ fft_ st' = fft_ st
  /\ optimization_ st' = optimization_ st.
Proof.
  intros Hv. apply echo_path_changed_cases in Hv. cbv zeta.
  rewrite (HandleEchoPathChange_changed st v Hv). repeat split; reflexivity.
Qed.

(** C7: with the no-change category [HandleEchoPathChange] returns the
    subtractor as it was: flag, filters and gain computers. *)
Theorem HandleEchoPathChange_no_change st (v : EchoPathVariability C) :
  delay_change C v = kNone -> HandleEchoPathChange st v = st.
Proof.
  intros Hv. apply HandleEchoPathChange_unchanged.
  unfold echo_path_changed. rewrite Hv. reflexivity.
Qed.

(** *** The flag over sequences of calls *)

Lemma step_keeps_converged st (c : Call C) st' :
  converged_filter_ st = true -> is_reset c = false ->
  step st c = Done st' -> converged_filter_ st' = true.
Proof.
  intros Hconv Hr. destruct c as [rb capture rsa aec output|v]; simpl.
  - destruct (Process st rb capture rsa aec output) as [[[st1 o1] d1]| |] eqn:HP;
      try discriminate.
    simpl. intros [= <-]. apply Process_Done in HP. cbv zeta in HP.
    destruct HP as (_ & _ & _ & _ & _ & _ & _ & _ & _ & _ & Hc & _).
    rewrite Hc, Hconv. reflexivity.
  - intros [= <-]. simpl in Hr.
    rewrite HandleEchoPathChange_unchanged by exact Hr. exact Hconv.
Qed.

Lemma step_returns st (c : Call C) :
  block_sized c = true -> exists st', step st c = Done st'.
Proof.
  destruct c as [rb capture rsa aec output|v]; simpl; intros Hb.
  - apply Nat.eqb_eq in Hb.
    destruct (Process_returns st rb capture rsa aec output Hb)
      as (st' & o' & d' & HP).
    rewrite HP. simpl. eauto.
  - eauto.
Qed.

Lemma run_returns (calls : list (Call C)) st :
  Forall (fun c => block_sized c = true) calls -> exists st', run st calls = Done st'.
Proof.
  revert st. induction calls as [|c calls IH]; intros st Hb; simpl.
  - eauto.
  - inversion Hb as [|? ? Hc Hrest]; subst.
    destruct (step_returns st c Hc) as (st1 & H1). rewrite H1. simpl.
    apply IH, Hrest.
Qed.

Lemma run_keeps_converged (calls : list (Call C)) st st' :
  converged_filter_ st = true ->
  Forall (fun c => is_reset c = false) calls ->
  run st calls = Done st' -> converged_filter_ st' = true.
Proof.
  revert st. induction calls as [|c calls IH]; intros st Hconv Hnr; simpl.
  - intros [= <-]. exact Hconv.
  - inversion Hnr as [|? ? Hc Hrest]; subst.
    destruct (step st c) as [st1| |] eqn:H1; try discriminate. simpl.
    apply IH; [|exact Hrest].
    eapply step_keeps_converged; eauto.
Qed.

(** C2: the flag is sticky.  Over any sequence of [Process] and
    [HandleEchoPathChange] calls that starts with the flag true, the calls
    return when every capture is block-sized, the flag is still true at the
    end if no call was a [HandleEchoPathChange] of a changed echo path, and
    if it is false at the end then one of the calls was such a reset. *)
Theorem converged_filter_sticky (calls : list (Call C)) st :
  converged_filter_ st = true ->
  (Forall (fun c => block_sized c = true) calls ->
   exists st', run st calls = Done st')
  /\ (forall st', run st calls = Done st' ->
       (Forall (fun c => is_reset c = false) calls -> converged_filter_ st' = true)
       /\ (converged_filter_ st' = false ->
           Exists (fun c => is_reset c = true) calls)).
Proof.
  intros Hconv. split; [apply run_returns|].
  intros st' Hrun. split.
  - intros Hnr. eapply run_keeps_converged; eauto.
  - intros Hfalse.
    destruct (Forall_Exists_dec (fun c => is_reset c = false)
                (fun c => bool_dec (is_reset c) false) calls) as [Hall|Hex].
    + rewrite (@run_keeps_converged calls st st' Hconv Hall Hrun) in Hfalse. discriminate.
    + eapply Exists_impl; [|exact Hex].
      intros c Hc. simpl in Hc. destruct (is_reset c); congruence.
Qed.

(** *** The shadow filter's power-spectrum sum *)

(** C5: when the shadow filter's partition count differs from the main
    filter's at the point where [Process] compares them, the shadow filter is
    adapted with the gain that [G_shadow_.Compute] derives from the spectral
    sum over the shadow filter's own partition count. *)
Theorem Process_shadow_spectral_sum st (rb : RenderBuffer C) (capture : list float)
    (rsa : RenderSignalAnalyzer C) (aec : AecState C) output :
  length capture = kBlockSize ->
  exists st' output' dumps,
    Process st rb capture rsa aec output = Done (st', output', dumps)
    /\ (SizePartitions C (shadow_filter_ st) <> SizePartitions C (main_filter_ st') ->
        let X2_main := SpectralSum C rb (SizePartitions C (main_filter_ st)) in
        let X2_shadow := SpectralSum C rb (SizePartitions C (shadow_filter_ st)) in
        let G_main :=
          snd (MainCompute C (G_main_ st) X2_main rsa output' (main_filter_ st)
                 (SaturatedCapture C aec) (Filter C (shadow_filter_ st) rb)) in
        let E_shadow := ZeroPaddedFft (fft_ st) (e_shadow output') kHanning in
        let G_shadow :=
          snd (ShadowCompute C (G_shadow_ st) X2_shadow rsa E_shadow
                 (SizePartitions C (shadow_filter_ st))
                 (SaturatedCapture C aec) G_main) in
        main_filter_ st' = Adapt C (main_filter_ st) rb G_main
        /\ shadow_filter_ st' = Adapt C (shadow_filter_ st) rb G_shadow).
Proof.
  intros Hlen.
  destruct (Process_returns st rb capture rsa aec output Hlen)
    as (st' & output' & dumps & HP).
  exists st', output', dumps. split; [exact HP|]. intros Hne.
  apply Process_Done in HP. cbv zeta in HP.
  destruct HP as (_ & _ & _ & _ & _ & _ & _ & _ & _ & _ & _ & _ & Hm & _ & Hs).
  cbv zeta. split; [exact Hm|]. rewrite Hs. unfold shadow_X2.
  apply Nat.eqb_neq in Hne. rewrite Hne. reflexivity.
Qed.

(** The echo estimate that [Process] leaves in [output.s_main] is the scaled
    second half of the inverse transform of the main filter's estimate, as
    [PredictionError] wrote it: no clamp is applied to it. *)
Lemma Process_s_main st (rb : RenderBuffer C) (capture : list float)
    (rsa : RenderSignalAnalyzer C) (aec : AecState C) output
    st' output' dumps (k : nat) :
  Process st rb capture rsa aec output = Done (st', output', dumps) ->
  k < length (s_main output) ->
  nth k (s_main output') F32.zero =
  (kScale * nth (k + kFftLengthBy2)
              (Ifft (fft_ st) (Filter C (main_filter_ st) rb)) F32.zero)%f32.
Proof.
  intros HP Hk. apply Process_Done in HP. cbv zeta in HP.
  destruct HP as (_ & Hs & _). rewrite Hs. apply echo_estimate_nth, Hk.
Qed.

(** *** The capture-size check *)

(** Only the check aborts a call. *)
Lemma Process_Fatal st (rb : RenderBuffer C) (capture : list float)
    (rsa : RenderSignalAnalyzer C) (aec : AecState C) output :
  Process st rb capture rsa aec output = Fatal ->
  RTC_DCHECK_IS_ON C = true /\ length capture <> kBlockSize.
Proof.
  unfold Process, RTC_DCHECK_EQ.
  destruct (RTC_DCHECK_IS_ON C && negb (kBlockSize =? length capture)) eqn:Hchk;
    cbn [bind].
  - intros _. apply andb_true_iff in Hchk. destruct Hchk as [Hon Hb].
    apply negb_true_iff, Nat.eqb_neq in Hb. split; [exact Hon|congruence].
  - destruct (kBlockSize <? length capture); [discriminate|].
    cbv beta iota zeta delta [PredictionError fst snd option_map].
    destruct (MainCompute C _ _ _ _ _ _ _), (ShadowCompute C _ _ _ _ _ _ _).
    discriminate.
Qed.

(** C8, as the code has it: [RTC_DCHECK_EQ] aborts a call with a capture of
    any other length than [kBlockSize] when the checks are compiled in;
    nothing else aborts a call, and a block-sized capture always returns. *)
Theorem Process_capture_size_check st (rb : RenderBuffer C) (capture : list float)
    (rsa : RenderSignalAnalyzer C) (aec : AecState C) output :
  (RTC_DCHECK_IS_ON C = true -> length capture <> kBlockSize ->
   Process st rb capture rsa aec output = Fatal)
  /\ (Process st rb capture rsa aec output = Fatal ->
      RTC_DCHECK_IS_ON C = true /\ length capture <> kBlockSize)
  /\ (length capture = kBlockSize ->
      exists r, Process st rb capture rsa aec output = Done r).
Proof.
  split; [|split].
  - intros Hon Hne. unfold Process, RTC_DCHECK_EQ. rewrite Hon.
    assert (Hb : (kBlockSize =? length capture) = false)
      by (apply Nat.eqb_neq; congruence).
    rewrite Hb. reflexivity.
  - apply Process_Fatal.
  - intros Hlen.
    destruct (Process_returns st rb capture rsa aec output Hlen)
      as (st' & o' & d' & HP).
    eauto.
Qed.

(** *** What the output record holds of the shadow filter *)

(** C9, as the code has it: the shadow filter's windowed error spectrum is a
    local of [Process]; the output record receives its power spectrum
    ([E2_shadow]) and the time-domain block [e_shadow] it is the transform
    of, and the only spectra in the record are the two of the main filter. *)
Theorem Process_shadow_outputs st (rb : RenderBuffer C) (capture : list float)
    (rsa : RenderSignalAnalyzer C) (aec : AecState C) output :
  length capture = kBlockSize ->
  exists st' output' dumps,
    Process st rb capture rsa aec output = Done (st', output', dumps)
    /\ let E_shadow := ZeroPaddedFft (fft_ st) (e_shadow output') kHanning in
       e_shadow output' =
         fst (PredictionError (fft_ st) (Filter C (shadow_filter_ st) rb) capture
                (e_shadow output) None)
       /\ E2_shadow output' = Spectrum C E_shadow (optimization_ st)
       /\ spectra output' = [ZeroPaddedFft (fft_ st) (e_main output') kHanning;
                             ZeroPaddedFft (fft_ st) (e_main output') kRectangular].
Proof.
  intros Hlen.
  destruct (Process_returns st rb capture rsa aec output Hlen)
    as (st' & output' & dumps & HP).
  exists st', output', dumps. split; [exact HP|].
  apply Process_Done in HP. cbv zeta in HP.
  destruct HP as (_ & _ & Hes & HE & HEn & _ & _ & HE2 & _).
  cbv zeta. unfold spectra. rewrite <- HE, <- HEn. auto.
Qed.

End SubtractorFacts.

(** ** The model run on the test doubles *)

Lemma Process_convergence_test_witness :
  exists st' output' dumps,
    Process (Stub.subtractor true (F32.of_Z 128) (F32.of_Z 64) 3 5 false)
      tt (Stub.block (F32.of_Z 1000)) tt false Stub.output0
    = Done (st', output', dumps)
    /\ converged_filter_ st' = true.
Proof.
  destruct (Process_convergence_test
              (Stub.subtractor true (F32.of_Z 128) (F32.of_Z 64) 3 5 false)
              tt (Stub.block (F32.of_Z 1000)) tt false Stub.output0
              eq_refl eq_refl)
    as (st' & output' & dumps & HP & H).
  exists st', output', dumps. split; [exact HP|].
  cbv zeta in H. destruct H as (_ & _ & H & _).
  rewrite H by (vm_compute; reflexivity).
  destruct (Process_Done _ _ _ _ _ _ HP) as (He & _ & Hes & _).
  rewrite He, Hes. vm_compute. reflexivity.
Defined.

Lemma converged_filter_sticky_witness :
  exists st',
    run (Stub.subtractor true (F32.of_Z 128) (F32.of_Z 64) 3 5 true)
      [CallProcess (Stub.collaborators true) tt (Stub.block F32.zero) tt false
         Stub.output0;
       CallHandleEchoPathChange (Stub.collaborators true) kNone;
       CallProcess (Stub.collaborators true) tt (Stub.block (F32.of_Z 1000)) tt true
         Stub.output0]
    = Done st'
    /\ converged_filter_ st' = true.
Proof.
  destruct (converged_filter_sticky
              [CallProcess (Stub.collaborators true) tt (Stub.block F32.zero) tt false
                 Stub.output0;
               CallHandleEchoPathChange (Stub.collaborators true) kNone;
               CallProcess (Stub.collaborators true) tt (Stub.block (F32.of_Z 1000))
                 tt true Stub.output0]
              (Stub.subtractor true (F32.of_Z 128) (F32.of_Z 64) 3 5 true)
              eq_refl)
    as [Hret Hkeep].
  destruct Hret as [st' Hrun]; [repeat constructor|].
  exists st'. split; [exact Hrun|].
  apply (Hkeep st' Hrun). repeat constructor.
Defined.

Lemma Process_shadow_spectral_sum_witness :
  exists st' output' dumps,
    Process (Stub.subtractor true (F32.of_Z 128) (F32.of_Z 64) 3 5 false)
      tt (Stub.block (F32.of_Z 1000)) tt false Stub.output0
    = Done (st', output', dumps)
    /\ re (Stub.response (shadow_filter_ st')) = repeat (F32.of_nat 5) kFftLengthBy2Plus1.
Proof.
  destruct (Process_shadow_spectral_sum
              (Stub.subtractor true (F32.of_Z 128) (F32.of_Z 64) 3 5 false)
              tt (Stub.block (F32.of_Z 1000)) tt false Stub.output0 eq_refl)
    as (st' & output' & dumps & HP & H).
  exists st', output', dumps. split; [exact HP|].
  destruct H as [_ Hs].
  - destruct (Process_Done _ _ _ _ _ _ HP)
      as (_ & _ & _ & _ & _ & _ & _ & _ & _ & _ & _ & _ & Hm & _).
    rewrite Hm. vm_compute. discriminate.
  - rewrite Hs. vm_compute. reflexivity.
Defined.

Lemma HandleEchoPathChange_full_reset_witness :
  converged_filter_
    (HandleEchoPathChange
       (Stub.subtractor true (F32.of_Z 128) (F32.of_Z 64) 3 5 true)
       (kDelayReset : EchoPathVariability (Stub.collaborators true)))
  = false.
Proof.
  apply (HandleEchoPathChange_full_reset
           (Stub.subtractor true (F32.of_Z 128) (F32.of_Z 64) 3 5 true)
           (kDelayReset : EchoPathVariability (Stub.collaborators true))).
  simpl. tauto.
Defined.

Lemma HandleEchoPathChange_no_change_witness :
  HandleEchoPathChange
    (Stub.subtractor true (F32.of_Z 128) (F32.of_Z 64) 3 5 true)
    (kNone : EchoPathVariability (Stub.collaborators true))
  = Stub.subtractor true (F32.of_Z 128) (F32.of_Z 64) 3 5 true.
Proof.
  apply (HandleEchoPathChange_no_change
           (Stub.subtractor true (F32.of_Z 128) (F32.of_Z 64) 3 5 true)
           (kNone : EchoPathVariability (Stub.collaborators true))).
  reflexivity.
Defined.

Lemma Process_capture_size_check_witness :
  Process (Stub.subtractor true (F32.of_Z 128) (F32.of_Z 64) 3 5 false)
    tt (Stub.zeros 63) tt false Stub.output0
  = Fatal.
Proof.
  apply (Process_capture_size_check
           (Stub.subtractor true (F32.of_Z 128) (F32.of_Z 64) 3 5 false)
           tt (Stub.zeros 63) tt false Stub.output0).
  - reflexivity.
  - vm_compute. discriminate.
Defined.

(** C8, as the spec states it, fails: in a build without the debug checks a
    call with 63 capture samples is not stopped, it returns. *)
Lemma Process_short_capture_not_fatal :
  ~ (forall (C : Collaborators) (st : Subtractor C) (rb : RenderBuffer C)
            (capture : list float) (rsa : RenderSignalAnalyzer C)
            (aec : AecState C) (output : SubtractorOutput),
       length capture <> kBlockSize ->
       Process st rb capture rsa aec output = Fatal).
Proof.
  intros H.
  assert (Hlen : length (Stub.zeros 63) <> kBlockSize) by (vm_compute; discriminate).
  specialize (H (Stub.collaborators false)
                (Stub.subtractor false (F32.of_Z 128) (F32.of_Z 64) 3 5 false)
                tt (Stub.zeros 63) tt false Stub.output0 Hlen).
  apply Process_Fatal in H. destruct H as [H _]. discriminate H.
Qed.

Lemma Process_shadow_outputs_witness :
  exists st' output' dumps,
    Process (Stub.subtractor true (F32.of_Z 128) (F32.of_Z 64) 3 5 false)
      tt (Stub.block (F32.of_Z 1000)) tt false Stub.output0
    = Done (st', output', dumps)
    /\ E2_shadow output' =
       Stub.power (Stub.zero_padded_fft (e_shadow output') kHanning).
Proof.
  destruct (Process_shadow_outputs
              (Stub.subtractor true (F32.of_Z 128) (F32.of_Z 64) 3 5 false)
              tt (Stub.block (F32.of_Z 1000)) tt false Stub.output0 eq_refl)
    as (st' & output' & dumps & HP & _ & H & _).
  exists st', output', dumps. split; [exact HP|exact H].
Defined.

(** C9, as the spec states it, fails: after a call in which the two filters
    predict different echoes, neither spectrum in the output record is the
    shadow filter's windowed error spectrum. *)
Lemma Process_output_lacks_E_shadow :
  ~ (forall (C : Collaborators) (st : Subtractor C) (rb : RenderBuffer C)
            (capture : list float) (rsa : RenderSignalAnalyzer C)
            (aec : AecState C) (output : SubtractorOutput)
            (st' : Subtractor C) (output' : SubtractorOutput)
            (dumps : list (DumpEvent C)),
       Process st rb capture rsa aec output = Done (st', output', dumps) ->
       In (ZeroPaddedFft (fft_ st) (e_shadow output') kHanning) (spectra output')).
Proof.
  intros H.
  destruct (Process_returns
              (Stub.subtractor true (F32.of_Z 128) (F32.of_Z 64) 3 5 false)
              tt (Stub.block (F32.of_Z 1000)) tt false Stub.output0 eq_refl)
    as (st' & output' & dumps & HP).
  specialize (H _ _ _ _ _ _ _ _ _ _ HP).
  destruct (Process_Done _ _ _ _ _ _ HP) as (He & _ & Hes & HE & HEn & _).
  unfold spectra in H. rewrite HE, HEn, He, Hes in H.
  vm_compute in H. destruct H as [H|[H|[]]]; discriminate H.
Qed.

(** * Further properties of the code *)

(** ** The clamp, case by case *)

Lemma SFcompare_Eq_finite (x : spec_float) (s : bool) (m : positive) (e : Z) :
  SFcompare x (S754_finite s m e) = Some Eq -> x = S754_finite s m e.
Proof.
  destruct x as [sx|sx| |sx mx ex]; simpl; try discriminate.
  - destruct s; discriminate.
  - destruct sx; discriminate.
  - destruct sx, s; try discriminate;
      destruct (ex ?= e)%Z eqn:He; try discriminate;
      apply Z.compare_eq in He; subst ex; intros [= Hm].
    + apply (f_equal CompOpp) in Hm. rewrite CompOpp_involutive in Hm. simpl in Hm.
      apply Pos.compare_eq in Hm. subst mx. reflexivity.
    + apply Pos.compare_eq in Hm. subst mx. reflexivity.
Qed.

Lemma SafeClamp_in_range_id (x : float) :
  in_clip_range x = true -> SafeClamp x kClipMin kClipMax = x.
Proof.
  unfold in_clip_range, SafeClamp, F32.le, F32.ge, SFleb.
  intros H. apply andb_prop in H. destruct H as [Hlo Hhi].
  destruct (SFcompare kClipMin x) as [c1|] eqn:H1; [|discriminate].
  destruct (SFcompare x kClipMax) as [c2|] eqn:H2; [|discriminate].
  rewrite (SFcompare_antisym _ _ H1), (SFcompare_antisym _ _ H2).
  destruct c1; try discriminate; destruct c2; try discriminate; simpl;
    try reflexivity;
    try (apply SFcompare_antisym in H1; simpl in H1;
         symmetry; apply (SFcompare_Eq_finite _ _ _ _ H1));
    try (symmetry; apply (SFcompare_Eq_finite _ _ _ _ H2)).
Qed.



(** X1: a sample of the error block that the subtraction leaves inside
    [-32768, 32767] is not altered by the clamp: it is exactly
    [y[i] - tmp[i + kFftLengthBy2] * kScale]. *)
Theorem PredictionError_exact_in_range (fft : Aec3Fft) (S : FftData)
    (y e : list float) (s : option (list float)) (i : nat) :
  length y = kBlockSize -> length e = kBlockSize -> i < kBlockSize ->
  let d := (nth i y F32.zero
            - nth (i + kFftLengthBy2) (Ifft fft S) F32.zero * kScale)%f32 in
  in_clip_range d = true ->
  nth i (fst (PredictionError fft S y e s)) F32.zero = d.
Proof.
  intros Hy He Hi d Hd. subst d.
  rewrite PredictionError_e.
  rewrite (@map_nth_in float float _ _ i F32.zero F32.zero)
    by (unfold error_before_clip; rewrite transform_length; lia).
  rewrite error_before_clip_nth by (auto; apply Ifft_size).
  apply SafeClamp_in_range_id, Hd.
Qed.

Lemma PredictionError_exact_in_range_witness :
  nth 0 (fst (PredictionError Stub.fft (Stub.constant_spectrum (F32.of_Z 128))
                (Stub.block (F32.of_Z 1000)) (Stub.zeros kBlockSize) None))
      F32.zero
  = F32.of_Z 998.
Proof.
  rewrite (PredictionError_exact_in_range Stub.fft
             (Stub.constant_spectrum (F32.of_Z 128))
             (Stub.block (F32.of_Z 1000)) (Stub.zeros kBlockSize) None (i := 0)
             eq_refl eq_refl (Nat.lt_0_succ _) eq_refl).
  vm_compute. reflexivity.
Defined.



(** ** What PredictionError reads of its output arrays *)

Lemma transform_destination_irrelevant (A B C : Type) (op : A -> B -> C)
    (l1 : list A) (l2 : list B) (d d' : list C) :
  length d = length d' -> length d <= length l1 -> length d <= length l2 ->
  transform op l1 l2 d = transform op l1 l2 d'.
Proof.
  revert l2 d d'.
  induction l1 as [|a l1 IH]; intros [|b l2] [|c d] [|c' d']; simpl;
    try discriminate; try lia; try reflexivity.
  intros Hl H1 H2. f_equal. apply IH; lia.
Qed.

Lemma transform_nth_beyond (A B C : Type) (op : A -> B -> C)
    (l1 : list A) (l2 : list B) (d : list C) (i : nat) (dc : C) :
  length l1 <= i -> nth i (transform op l1 l2 d) dc = nth i d dc.
Proof.
  revert l2 d i.
  induction l1 as [|a l1 IH]; intros [|b l2] [|c d] i; simpl; try reflexivity.
  destruct i as [|i]; [lia|]. intros H. apply IH. lia.
Qed.

Lemma echo_estimate_same_length (tmp s s' : list float) :
  length s = length s' -> echo_estimate tmp s = echo_estimate tmp s'.
Proof. intros H. unfold echo_estimate. rewrite H. reflexivity. Qed.

Lemma error_before_clip_overwrites (tmp y e e' : list float) :
  length tmp = kFftLength -> length y = kBlockSize ->
  length e = kBlockSize -> length e' = kBlockSize ->
  error_before_clip tmp y e = error_before_clip tmp y e'.
Proof.
  intros Ht Hy He He'. unfold error_before_clip.
  apply transform_destination_irrelevant.
  - congruence.
  - lia.
  - rewrite length_skipn, Ht, He. unfold kFftLength, kBlockSize. lia.
Qed.

(** X3: with a block-sized capture, [PredictionError] overwrites its two
    output arrays completely: what [e] and [s] held on entry has no
    influence on what they hold on return. *)
Theorem PredictionError_overwrites (fft : Aec3Fft) (S : FftData)
    (y e e' s s' : list float) :
  length y = kBlockSize ->
  length e = kBlockSize -> length e' = kBlockSize ->
  length s = kBlockSize -> length s' = kBlockSize ->
  PredictionError fft S y e (Some s) = PredictionError fft S y e' (Some s')
  /\ PredictionError fft S y e None = PredictionError fft S y e' None.
Proof.
  intros Hy He He' Hs Hs'. unfold PredictionError. simpl.
  rewrite (@error_before_clip_overwrites (Ifft fft S) y e e' (Ifft_size fft S)
             Hy He He').
  rewrite (@echo_estimate_same_length (Ifft fft S) s s') by congruence.
  split; reflexivity.
Qed.

Lemma PredictionError_overwrites_witness :
  PredictionError Stub.fft (Stub.constant_spectrum (F32.of_Z 128))
    (Stub.block (F32.of_Z 1000)) (Stub.zeros kBlockSize) None
  = PredictionError Stub.fft (Stub.constant_spectrum (F32.of_Z 128))
      (Stub.block (F32.of_Z 1000)) (Stub.block (F32.of_Z 7)) None.
Proof.
  apply (PredictionError_overwrites Stub.fft (Stub.constant_spectrum (F32.of_Z 128))
           (Stub.block (F32.of_Z 1000)) (Stub.zeros kBlockSize)
           (Stub.block (F32.of_Z 7)) (Stub.zeros kBlockSize) (Stub.zeros kBlockSize)
           eq_refl eq_refl eq_refl eq_refl eq_refl).
Defined.

(** X4: with a capture shorter than the block (a call that only a build
    without the debug checks lets through), the [std::transform] stops at
    the end of the capture: the samples of [e] from index [y.size()] on are
    the previous contents of [e], passed through the clamp. *)
Theorem PredictionError_short_capture_tail (fft : Aec3Fft) (S : FftData)
    (y e : list float) (s : option (list float)) (i : nat) :
  length y <= i -> i < length e ->
  nth i (fst (PredictionError fft S y e s)) F32.zero =
  SafeClamp (nth i e F32.zero) kClipMin kClipMax.
Proof.
  intros Hy Hi. rewrite PredictionError_e.
  rewrite (@map_nth_in float float _ _ i F32.zero F32.zero)
    by (unfold error_before_clip; rewrite transform_length; exact Hi).
  unfold error_before_clip. rewrite transform_nth_beyond by exact Hy.
  reflexivity.
Qed.

Lemma PredictionError_short_capture_tail_witness :
  nth 63 (fst (PredictionError Stub.fft (Stub.constant_spectrum (F32.of_Z 128))
                 (Stub.zeros 63) (Stub.block (F32.of_Z 40000)) None))
      F32.zero
  = kClipMax.
Proof.
  rewrite (PredictionError_short_capture_tail Stub.fft
             (Stub.constant_spectrum (F32.of_Z 128))
             (Stub.zeros 63) (Stub.block (F32.of_Z 40000)) None (i := 63)).
  - vm_compute. reflexivity.
  - vm_compute. apply le_n.
  - vm_compute. apply le_n.
Defined.

(** ** A filter that predicts nothing *)

Lemma sub_zero_scaled (a z : float) :
  is_zero z = true -> is_zero a = false -> (a - z * kScale)%f32 = a.
Proof.
  rewrite kScale_value.
  destruct z as [[|]| | |]; try discriminate; intros _;
    destruct a as [[|]|[|]| |[|] m e]; try discriminate; reflexivity.
Qed.

Lemma sub_zero_scaled_zero (a z : float) :
  is_zero z = true -> is_zero a = true -> is_zero (a - z * kScale)%f32 = true.
Proof.
  rewrite kScale_value.
  destruct z as [[|]| | |]; try discriminate; intros _;
    destruct a as [[|]| | |]; try discriminate; reflexivity.
Qed.

Lemma SFcompare_same (a : spec_float) :
  F32.is_nan a = false -> SFcompare a a = Some Eq.
Proof.
  destruct a as [[|]|[|]| |[|] m e]; simpl; try discriminate; intros _;
    try reflexivity;
    rewrite Z.compare_refl, (Pos.compare_cont_refl m Eq); reflexivity.
Qed.

(** X5: where the inverse transform of the estimate is zero, of either
    sign (a filter that predicts no echo), and the capture sample is inside
    [-32768, 32767], the error sample equals the capture sample ([==] of
    C++), it is the very same float unless the capture sample is itself a
    zero, and the echo-estimate sample is a zero. *)
Theorem PredictionError_zero_estimate (fft : Aec3Fft) (S : FftData)
    (y e s : list float) (i : nat) :
  length y = kBlockSize -> length e = kBlockSize -> length s = kBlockSize ->
  i < kBlockSize ->
  is_zero (nth (i + kFftLengthBy2) (Ifft fft S) F32.zero) = true ->
  in_clip_range (nth i y F32.zero) = true ->
  let e' := nth i (fst (PredictionError fft S y e (Some s))) F32.zero in
  SFeqb e' (nth i y F32.zero) = true
  /\ (is_zero (nth i y F32.zero) = false -> e' = nth i y F32.zero)
  /\ exists s', snd (PredictionError fft S y e (Some s)) = Some s'
                /\ is_zero (nth i s' F32.zero) = true.
Proof.
  intros Hy He Hs Hi Hz Hr. cbv zeta.
  assert (He' : nth i (fst (PredictionError fft S y e (Some s))) F32.zero =
                SafeClamp (nth i y F32.zero
                           - nth (i + kFftLengthBy2) (Ifft fft S) F32.zero * kScale)%f32
                  kClipMin kClipMax).
  { rewrite PredictionError_e.
    rewrite (@map_nth_in float float _ _ i F32.zero F32.zero)
      by (unfold error_before_clip; rewrite transform_length; lia).
    rewrite error_before_clip_nth by (auto; apply Ifft_size). reflexivity. }
  rewrite He'. clear He'.
  destruct (is_zero (nth i y F32.zero)) eqn:Hy0.
  - split; [|split; [discriminate|]].
    + pose proof (sub_zero_scaled_zero _ _ Hz Hy0) as H0.
      destruct (nth i y F32.zero) as [sy| | |]; try discriminate.
      destruct (_ - _)%f32 as [[|]| | |]; try discriminate; destruct sy; reflexivity.
    + exists (echo_estimate (Ifft fft S) s). split; [reflexivity|].
      rewrite echo_estimate_nth by lia. rewrite kScale_value.
      destruct (nth _ (Ifft fft S) F32.zero) as [[|]| | |]; try discriminate;
        reflexivity.
  - rewrite (sub_zero_scaled _ _ Hz Hy0), (SafeClamp_in_range_id _ Hr).
    split; [|split; [reflexivity|]].
    + unfold SFeqb. rewrite SFcompare_same; [reflexivity|].
      apply in_clip_range_not_nan, Hr.
    + exists (echo_estimate (Ifft fft S) s). split; [reflexivity|].
      rewrite echo_estimate_nth by lia. rewrite kScale_value.
      destruct (nth _ (Ifft fft S) F32.zero) as [[|]| | |]; try discriminate;
        reflexivity.
Qed.

Lemma PredictionError_zero_estimate_witness :
  nth 0 (fst (PredictionError Stub.fft (Stub.constant_spectrum (S754_zero true))
                (Stub.block (F32.of_Z 32767)) (Stub.zeros kBlockSize)
                (Some (Stub.zeros kBlockSize))))
      F32.zero
  = F32.of_Z 32767.
Proof.
  apply (PredictionError_zero_estimate Stub.fft
           (Stub.constant_spectrum (S754_zero true))
           (Stub.block (F32.of_Z 32767)) (Stub.zeros kBlockSize)
           (Stub.zeros kBlockSize) (i := 0)
           eq_refl eq_refl eq_refl (Nat.lt_0_succ _) eq_refl eq_refl).
  reflexivity.
Defined.

(** ** Energies *)

Lemma energy_of_zeros (l : list float) :
  forallb is_zero l = true -> energy l = F32.zero.
Proof.
  unfold energy, accumulate.
  induction l as [|a l IH]; simpl; [reflexivity|].
  intros H. apply andb_prop in H. destruct H as [Ha Hl].
  destruct a as [[|]| | |]; try discriminate; exact (IH Hl).
Qed.

Lemma sum_of_squares_nan_l (b : float) : sum_of_squares S754_nan b = S754_nan.
Proof. reflexivity. Qed.

Lemma sum_of_squares_nan_r (a : float) : sum_of_squares a S754_nan = S754_nan.
Proof. destruct a; reflexivity. Qed.

Lemma accumulate_from_nan (l : list float) :
  accumulate l S754_nan sum_of_squares = S754_nan.
Proof.
  unfold accumulate. induction l as [|a l IH]; simpl; [reflexivity|exact IH].
Qed.

(** One NaN sample makes the whole energy NaN. *)
Lemma energy_nan (l : list float) : In S754_nan l -> energy l = S754_nan.
Proof.
  unfold energy. generalize F32.zero.
  induction l as [|a l IH]; intros acc; simpl; [contradiction|].
  intros [Ha|Hl].
  - subst a. unfold accumulate. simpl.
    rewrite sum_of_squares_nan_r. apply accumulate_from_nan.
  - unfold accumulate. simpl. apply (IH _ Hl).
Qed.

Section FurtherFacts.

Variable C : Collaborators.

Implicit Types (st : Subtractor C) (output : SubtractorOutput).

Lemma convergence_update_below (b : bool) (e_main e_shadow y : list float) :
  (energy y >? energy_floor)%f32 = false ->
  convergence_update b e_main e_shadow y = b.
Proof.
  intros H. unfold convergence_update. rewrite H. destruct b; reflexivity.
Qed.

Lemma Process_converged st (rb : RenderBuffer C) (capture : list float)
    (rsa : RenderSignalAnalyzer C) (aec : AecState C) output st' output' dumps :
  Process st rb capture rsa aec output = Done (st', output', dumps) ->
  converged_filter_ st' =
  convergence_update (converged_filter_ st) (e_main output') (e_shadow output') capture.
Proof.
  intros HP. apply Process_Done in HP. cbv zeta in HP.
  destruct HP as (_ & _ & _ & _ & _ & _ & _ & _ & _ & _ & Hc & _). exact Hc.
Qed.

(** *** The flag over quiet calls *)

Lemma step_keeps_unconverged st (c : Call C) st' :
  converged_filter_ st = false -> above_floor c = false ->
  step st c = Done st' -> converged_filter_ st' = false.
Proof.
  intros Hconv Hq. destruct c as [rb capture rsa aec output|v]; simpl.
  - destruct (Process st rb capture rsa aec output) as [[[st1 o1] d1]| |] eqn:HP;
      try discriminate.
    simpl. intros [= <-].
    apply Process_converged in HP. rewrite HP.
    simpl in Hq. rewrite convergence_update_below by exact Hq. exact Hconv.
  - intros [= <-].
    destruct (echo_path_changed C v) eqn:Hv.
    + rewrite HandleEchoPathChange_changed by exact Hv. reflexivity.
    + rewrite HandleEchoPathChange_unchanged by exact Hv. exact Hconv.
Qed.

Lemma run_keeps_unconverged (calls : list (Call C)) st st' :
  converged_filter_ st = false ->
  Forall (fun c => above_floor c = false) calls ->
  run st calls = Done st' -> converged_filter_ st' = false.
Proof.
  revert st. induction calls as [|c calls IH]; intros st Hconv Hq; simpl.
  - intros [= <-]. exact Hconv.
  - inversion Hq as [|? ? Hc Hrest]; subst.
    destruct (step st c) as [st1| |] eqn:H1; try discriminate. simpl.
    apply IH; [|exact Hrest].
    eapply step_keeps_unconverged; eauto.
Qed.

(** X6: the flag goes from false to true only in a [Process] call whose
    capture energy exceeds the floor.  Over any sequence of calls that starts
    with the flag false, the flag is false at the end if no [Process] call
    had [y2 > kBlockSize * 2500], whatever the errors were, and if it is
    true at the end one of the calls was such a [Process]. *)
Theorem converged_filter_needs_energy (calls : list (Call C)) st st' :
  converged_filter_ st = false ->
  run st calls = Done st' ->
  (Forall (fun c => above_floor c = false) calls -> converged_filter_ st' = false)
  /\ (converged_filter_ st' = true ->
      Exists (fun c => above_floor c = true) calls).
Proof.
  intros Hconv Hrun. split.
  - intros Hq. eapply run_keeps_unconverged; eauto.
  - intros Htrue.
    destruct (Forall_Exists_dec (fun c => above_floor c = false)
                (fun c => bool_dec (above_floor c) false) calls) as [Hall|Hex].
    + rewrite (@run_keeps_unconverged calls st st' Hconv Hall Hrun) in Htrue.
      discriminate.
    + eapply Exists_impl; [|exact Hex].
      intros c Hc. simpl in Hc. destruct (above_floor c); congruence.
Qed.

Lemma silent_below_floor (c : Call C) : silent c = true -> above_floor c = false.
Proof.
  destruct c as [rb capture rsa aec output|v]; simpl; [|reflexivity].
  intros H. rewrite (energy_of_zeros _ H). reflexivity.
Qed.

(** X7: silence never sets the flag.  A sequence of calls in which every
    [Process] gets a block of zero samples returns, and a flag that was
    false before is false after, whatever the render history and the
    filters are. *)
Theorem silence_keeps_unconverged (calls : list (Call C)) st :
  converged_filter_ st = false ->
  Forall (fun c => block_sized c = true) calls ->
  Forall (fun c => silent c = true) calls ->
  exists st', run st calls = Done st' /\ converged_filter_ st' = false.
Proof.
  intros Hconv Hb Hs.
  destruct (run_returns st Hb) as [st' Hrun].
  exists st'. split; [exact Hrun|].
  apply (@run_keeps_unconverged calls st st' Hconv); [|exact Hrun].
  eapply Forall_impl; [|exact Hs]. intros c. apply silent_below_floor.
Qed.

(** X8: a capture block with a NaN sample has a NaN energy, for which
    [y2 > floor] is false: the call leaves the flag as it was, true or
    false. *)
Theorem Process_nan_capture_keeps_flag st (rb : RenderBuffer C)
    (capture : list float) (rsa : RenderSignalAnalyzer C) (aec : AecState C) output :
  length capture = kBlockSize ->
  In S754_nan capture ->
  exists st' output' dumps,
    Process st rb capture rsa aec output = Done (st', output', dumps)
    /\ energy capture = S754_nan
    /\ converged_filter_ st' = converged_filter_ st.
Proof.
  intros Hlen Hnan.
  destruct (Process_returns st rb capture rsa aec output Hlen)
    as (st' & output' & dumps & HP).
  exists st', output', dumps. split; [exact HP|]. split; [apply energy_nan, Hnan|].
  apply Process_converged in HP. rewrite HP.
  apply convergence_update_below. rewrite (energy_nan _ Hnan). reflexivity.
Qed.

End FurtherFacts.

Section ProcessFacts.

Variable C : Collaborators.

Implicit Types (st : Subtractor C) (output : SubtractorOutput).

(** *** The spectral sum behind the shadow gain *)

(** X9: when the two partition counts are equal at the comparison, the
    spectral sum is not queried again: the shadow gain is computed from the
    sum that was queried for the main filter's partition count before the
    main filter was adapted. *)
Theorem Process_shadow_reuses_main_sum st (rb : RenderBuffer C)
    (capture : list float) (rsa : RenderSignalAnalyzer C) (aec : AecState C) output :
  length capture = kBlockSize ->
  exists st' output' dumps,
    Process st rb capture rsa aec output = Done (st', output', dumps)
    /\ (SizePartitions C (shadow_filter_ st) = SizePartitions C (main_filter_ st') ->
        let X2_main := SpectralSum C rb (SizePartitions C (main_filter_ st)) in
        let G_main :=
          snd (MainCompute C (G_main_ st) X2_main rsa output' (main_filter_ st)
                 (SaturatedCapture C aec) (Filter C (shadow_filter_ st) rb)) in
        let E_shadow := ZeroPaddedFft (fft_ st) (e_shadow output') kHanning in
        shadow_filter_ st' =
        Adapt C (shadow_filter_ st) rb
          (snd (ShadowCompute C (G_shadow_ st) X2_main rsa E_shadow
                  (SizePartitions C (shadow_filter_ st))
                  (SaturatedCapture C aec) G_main))).
Proof.
  intros Hlen.
  destruct (Process_returns st rb capture rsa aec output Hlen)
    as (st' & output' & dumps & HP).
  exists st', output', dumps. split; [exact HP|]. intros Heq.
  apply Process_Done in HP. cbv zeta in HP.
  destruct HP as (_ & _ & _ & _ & _ & _ & _ & _ & _ & _ & _ & _ & _ & _ & Hs).
  cbv zeta. rewrite Hs. unfold shadow_X2.
  apply Nat.eqb_eq in Heq. rewrite Heq. reflexivity.
Qed.

(** X10: if adapting the main filter does not change its partition count,
    the gain that adapts the shadow filter is always computed from the
    spectral sum over the shadow filter's own partition count, whether the
    two counts are equal or not. *)
Theorem Process_shadow_sum_matches_filter st (rb : RenderBuffer C)
    (capture : list float) (rsa : RenderSignalAnalyzer C) (aec : AecState C) output :
  length capture = kBlockSize ->
  (forall G, SizePartitions C (Adapt C (main_filter_ st) rb G) =
             SizePartitions C (main_filter_ st)) ->
  exists st' output' dumps,
    Process st rb capture rsa aec output = Done (st', output', dumps)
    /\ let X2_main := SpectralSum C rb (SizePartitions C (main_filter_ st)) in
       let X2_shadow := SpectralSum C rb (SizePartitions C (shadow_filter_ st)) in
       let G_main :=
         snd (MainCompute C (G_main_ st) X2_main rsa output' (main_filter_ st)
                (SaturatedCapture C aec) (Filter C (shadow_filter_ st) rb)) in
       let E_shadow := ZeroPaddedFft (fft_ st) (e_shadow output') kHanning in
       shadow_filter_ st' =
       Adapt C (shadow_filter_ st) rb
         (snd (ShadowCompute C (G_shadow_ st) X2_shadow rsa E_shadow
                 (SizePartitions C (shadow_filter_ st))
                 (SaturatedCapture C aec) G_main)).
Proof.
  intros Hlen Hsize.
  destruct (Process_returns st rb capture rsa aec output Hlen)
    as (st' & output' & dumps & HP).
  exists st', output', dumps. split; [exact HP|].
  apply Process_Done in HP. cbv zeta in HP.
  destruct HP as (_ & _ & _ & _ & _ & _ & _ & _ & _ & _ & _ & _ & Hm & _ & Hs).
  cbv zeta. rewrite Hs. unfold shadow_X2.
  destruct (SizePartitions C (shadow_filter_ st) =? SizePartitions C (main_filter_ st'))
    eqn:Heq; simpl; [|reflexivity].
  apply Nat.eqb_eq in Heq. rewrite Hm, Hsize in Heq. rewrite Heq. reflexivity.
Qed.

(** *** Error and echo estimate of the main filter *)

(** X11: after a call, the main error block and the echo estimate in the
    output record fit together: [e_main[i]] is [y[i] - s_main[i]] passed
    through the clamp, for every sample of the block. *)
Theorem Process_error_plus_estimate st (rb : RenderBuffer C)
    (capture : list float) (rsa : RenderSignalAnalyzer C) (aec : AecState C)
    output (i : nat) :
  length capture = kBlockSize ->
  length (e_main output) = kBlockSize -> length (s_main output) = kBlockSize ->
  i < kBlockSize ->
  exists st' output' dumps,
    Process st rb capture rsa aec output = Done (st', output', dumps)
    /\ nth i (e_main output') F32.zero =
       SafeClamp (nth i capture F32.zero - nth i (s_main output') F32.zero)%f32
         kClipMin kClipMax.
Proof.
  intros Hlen He Hs Hi.
  destruct (Process_returns st rb capture rsa aec output Hlen)
    as (st' & output' & dumps & HP).
  exists st', output', dumps. split; [exact HP|].
  apply Process_Done in HP. cbv zeta in HP.
  destruct HP as (Hem & Hsm & _). rewrite Hem, Hsm.
  rewrite PredictionError_e.
  rewrite (@map_nth_in float float _ _ i F32.zero F32.zero)
    by (unfold error_before_clip; rewrite transform_length; lia).
  rewrite error_before_clip_nth by (auto; apply Ifft_size).
  rewrite echo_estimate_nth by lia.
  rewrite (SFmul_comm F32.prec F32.emax kScale). reflexivity.
Qed.

(** *** The output record on entry *)

(** X12: a call with a block-sized capture overwrites everything it reads
    back from the output record: two calls that differ only in what the
    record's arrays held on entry give the same subtractor, the same record
    and the same dumps. *)
Theorem Process_ignores_previous_output st (rb : RenderBuffer C)
    (capture : list float) (rsa : RenderSignalAnalyzer C) (aec : AecState C)
    (output1 output2 : SubtractorOutput) :
  length capture = kBlockSize ->
  length (e_main output1) = kBlockSize -> length (e_main output2) = kBlockSize ->
  length (e_shadow output1) = kBlockSize -> length (e_shadow output2) = kBlockSize ->
  length (s_main output1) = kBlockSize -> length (s_main output2) = kBlockSize ->
  Process st rb capture rsa aec output1 = Process st rb capture rsa aec output2.
Proof.
  intros Hlen He1 He2 Hs1 Hs2 Hm1 Hm2.
  unfold Process.
  cbv beta iota zeta delta [PredictionError fst snd option_map].
  rewrite (@error_before_clip_overwrites _ capture (e_main output1) (e_main output2)
             (Ifft_size _ _) Hlen He1 He2).
  rewrite (@error_before_clip_overwrites _ capture (e_shadow output1) (e_shadow output2)
             (Ifft_size _ _) Hlen Hs1 Hs2).
  rewrite (@echo_estimate_same_length _ (s_main output1) (s_main output2))
    by congruence.
  reflexivity.
Qed.

(** *** What the dumper receives *)

(** X13: a returning call hands the dumper six items in this order: the real
    and imaginary part of the gain the main filter was adapted with, those
    of the gain the shadow filter was adapted with, and then the two filters
    as they are after their adaptation. *)
Theorem Process_dumps st (rb : RenderBuffer C)
    (capture : list float) (rsa : RenderSignalAnalyzer C) (aec : AecState C)
    output st' output' dumps :
  Process st rb capture rsa aec output = Done (st', output', dumps) ->
  exists G_main G_shadow,
    main_filter_ st' = Adapt C (main_filter_ st) rb G_main
    /\ shadow_filter_ st' = Adapt C (shadow_filter_ st) rb G_shadow
    /\ dumps = [DumpRaw C "aec3_subtractor_G_main" (re G_main);
                DumpRaw C "aec3_subtractor_G_main" (im G_main);
                DumpRaw C "aec3_subtractor_G_shadow" (re G_shadow);
                DumpRaw C "aec3_subtractor_G_shadow" (im G_shadow);
                DumpFilter C "aec3_subtractor_H_main" (main_filter_ st');
                DumpFilter C "aec3_subtractor_H_shadow" (shadow_filter_ st')].
Proof.
  unfold Process, RTC_DCHECK_EQ.
  destruct (RTC_DCHECK_IS_ON C && negb (kBlockSize =? length capture));
    [discriminate|]. cbn [bind].
  destruct (kBlockSize <? length capture); [discriminate|].
  cbv beta iota zeta delta [PredictionError fst snd option_map].
  destruct (MainCompute C _ _ _ _ _ _ _) as [G_main' G] eqn:HM.
  destruct (ShadowCompute C _ _ _ _ _ _ _) as [G_shadow' G'] eqn:HS.
  intros [= <- <- <-]. exists G, G'. simpl. auto.
Qed.

End ProcessFacts.

(** ** The further properties run on the test doubles *)

Lemma converged_filter_needs_energy_witness :
  exists st',
    run (Stub.subtractor true (F32.of_Z 128) (F32.of_Z 64) 3 5 false)
      [CallProcess (Stub.collaborators true) tt (Stub.block (F32.of_Z 40)) tt false
         Stub.output0;
       CallHandleEchoPathChange (Stub.collaborators true) kBufferFlush;
       CallProcess (Stub.collaborators true) tt (Stub.block F32.zero) tt false
         Stub.output0]
    = Done st'
    /\ converged_filter_ st' = false.
Proof.
  destruct (@run_returns (Stub.collaborators true)
              [CallProcess (Stub.collaborators true) tt (Stub.block (F32.of_Z 40)) tt
                 false Stub.output0;
               CallHandleEchoPathChange (Stub.collaborators true) kBufferFlush;
               CallProcess (Stub.collaborators true) tt (Stub.block F32.zero) tt false
                 Stub.output0]
              (Stub.subtractor true (F32.of_Z 128) (F32.of_Z 64) 3 5 false))
    as [st' Hrun]; [repeat constructor|].
  exists st'. split; [exact Hrun|].
  refine (proj1 (@converged_filter_needs_energy _ _ _ _ _ Hrun) _).
  - reflexivity.
  - repeat constructor; vm_compute; reflexivity.
Defined.

Lemma silence_keeps_unconverged_witness :
  exists st',
    run (Stub.subtractor true (F32.of_Z 128) (F32.of_Z 64) 3 5 false)
      [CallProcess (Stub.collaborators true) tt (Stub.block F32.zero) tt false
         Stub.output0;
       CallProcess (Stub.collaborators true) tt (Stub.block (S754_zero true)) tt false
         Stub.output0]
    = Done st'
    /\ converged_filter_ st' = false.
Proof.
  apply (@silence_keeps_unconverged (Stub.collaborators true)
           [CallProcess (Stub.collaborators true) tt (Stub.block F32.zero) tt false
              Stub.output0;
            CallProcess (Stub.collaborators true) tt (Stub.block (S754_zero true)) tt
              false Stub.output0]
           (Stub.subtractor true (F32.of_Z 128) (F32.of_Z 64) 3 5 false)).
  - reflexivity.
  - repeat constructor.
  - repeat constructor.
Defined.

Lemma Process_nan_capture_keeps_flag_witness :
  exists st' output' dumps,
    Process (Stub.subtractor true (F32.of_Z 128) (F32.of_Z 64) 3 5 true)
      tt (S754_nan :: Stub.zeros 63) tt false Stub.output0
    = Done (st', output', dumps)
    /\ converged_filter_ st' = true.
Proof.
  destruct (Process_nan_capture_keeps_flag
              (Stub.subtractor true (F32.of_Z 128) (F32.of_Z 64) 3 5 true)
              tt (S754_nan :: Stub.zeros 63) tt false Stub.output0
              eq_refl (or_introl eq_refl))
    as (st' & output' & dumps & HP & _ & H).
  exists st', output', dumps. split; [exact HP|exact H].
Defined.

Lemma Process_shadow_reuses_main_sum_witness :
  exists st' output' dumps,
    Process (Stub.subtractor true (F32.of_Z 128) (F32.of_Z 64) 3 3 false)
      tt (Stub.block (F32.of_Z 1000)) tt false Stub.output0
    = Done (st', output', dumps)
    /\ re (Stub.response (shadow_filter_ st')) = repeat (F32.of_nat 3) kFftLengthBy2Plus1.
Proof.
  destruct (Process_shadow_reuses_main_sum
              (Stub.subtractor true (F32.of_Z 128) (F32.of_Z 64) 3 3 false)
              tt (Stub.block (F32.of_Z 1000)) tt false Stub.output0 eq_refl)
    as (st' & output' & dumps & HP & H).
  exists st', output', dumps. split; [exact HP|].
  rewrite H.
  - vm_compute. reflexivity.
  - destruct (Process_Done _ _ _ _ _ _ HP)
      as (_ & _ & _ & _ & _ & _ & _ & _ & _ & _ & _ & _ & Hm & _).
    rewrite Hm. reflexivity.
Defined.

Lemma Process_shadow_sum_matches_filter_witness :
  exists st' output' dumps,
    Process (Stub.subtractor true (F32.of_Z 128) (F32.of_Z 64) 3 5 false)
      tt (Stub.block (F32.of_Z 1000)) tt false Stub.output0
    = Done (st', output', dumps)
    /\ re (Stub.response (shadow_filter_ st')) = repeat (F32.of_nat 5) kFftLengthBy2Plus1.
Proof.
  destruct (Process_shadow_sum_matches_filter
              (Stub.subtractor true (F32.of_Z 128) (F32.of_Z 64) 3 5 false)
              tt (Stub.block (F32.of_Z 1000)) tt false Stub.output0
              eq_refl (fun G => eq_refl))
    as (st' & output' & dumps & HP & H).
  exists st', output', dumps. split; [exact HP|].
  rewrite H. vm_compute. reflexivity.
Defined.

Lemma Process_error_plus_estimate_witness :
  exists st' output' dumps,
    Process (Stub.subtractor true (F32.of_Z 128) (F32.of_Z 64) 3 5 false)
      tt (Stub.block (F32.of_Z 1000)) tt false Stub.output0
    = Done (st', output', dumps)
    /\ nth 0 (e_main output') F32.zero =
       SafeClamp (F32.of_Z 1000 - nth 0 (s_main output') F32.zero)%f32
         kClipMin kClipMax.
Proof.
  apply (Process_error_plus_estimate
           (Stub.subtractor true (F32.of_Z 128) (F32.of_Z 64) 3 5 false)
           tt (Stub.block (F32.of_Z 1000)) tt false Stub.output0 (i := 0)
           eq_refl eq_refl eq_refl (Nat.lt_0_succ _)).
Defined.

Lemma Process_ignores_previous_output_witness :
  Process (Stub.subtractor true (F32.of_Z 128) (F32.of_Z 64) 3 5 false)
    tt (Stub.block (F32.of_Z 1000)) tt false Stub.output0
  = Process (Stub.subtractor true (F32.of_Z 128) (F32.of_Z 64) 3 5 false)
      tt (Stub.block (F32.of_Z 1000)) tt false
      {| s_main := Stub.block (F32.of_Z 1);
         e_main := Stub.block (F32.of_Z 2);
         e_shadow := Stub.block (F32.of_Z 3);
         E_main := Stub.constant_spectrum (F32.of_Z 4);
         E_main_nonwindowed := Stub.constant_spectrum (F32.of_Z 5);
         E2_main := [];
         E2_main_nonwindowed := [];
         E2_shadow := [] |}.
Proof.
  apply (Process_ignores_previous_output
           (Stub.subtractor true (F32.of_Z 128) (F32.of_Z 64) 3 5 false)
           tt (Stub.block (F32.of_Z 1000)) tt false);
    reflexivity.
Defined.

Lemma Process_dumps_witness :
  exists st' output' dumps,
    Process (Stub.subtractor true (F32.of_Z 128) (F32.of_Z 64) 3 5 false)
      tt (Stub.block (F32.of_Z 1000)) tt false Stub.output0
    = Done (st', output', dumps)
    /\ length dumps = 6.
Proof.
  destruct (Process_returns
              (Stub.subtractor true (F32.of_Z 128) (F32.of_Z 64) 3 5 false)
              tt (Stub.block (F32.of_Z 1000)) tt false Stub.output0 eq_refl)
    as (st' & output' & dumps & HP).
  exists st', output', dumps. split; [exact HP|].
  destruct (Process_dumps _ _ _ _ _ _ HP) as (Gm & Gs & _ & _ & Hd).
  rewrite Hd. reflexivity.
Defined.

(** ** Array bounds and overflowing energies *)

Section EdgeFacts.

Variable C : Collaborators.

Implicit Types (st : Subtractor C) (output : SubtractorOutput).

(** X14: the size check comes before every array access.  A call runs into
    the write past the end of the error block exactly when the capture is
    longer than the block and the build leaves the debug checks out; with
    the checks compiled in no call gets that far. *)
Theorem Process_out_of_bounds st (rb : RenderBuffer C)
    (capture : list float) (rsa : RenderSignalAnalyzer C) (aec : AecState C) output :
  Process st rb capture rsa aec output = Undefined <->
  RTC_DCHECK_IS_ON C = false /\ kBlockSize < length capture.
Proof.
  unfold Process, RTC_DCHECK_EQ. split.
  - destruct (RTC_DCHECK_IS_ON C) eqn:Hon; cbn [andb].
    + destruct (negb (kBlockSize =? length capture)) eqn:Hb; cbn [bind];
        [discriminate|].
      apply negb_false_iff, Nat.eqb_eq in Hb.
      rewrite <- Hb, Nat.ltb_irrefl.
      cbv beta iota zeta delta [PredictionError fst snd option_map].
      destruct (MainCompute C _ _ _ _ _ _ _), (ShadowCompute C _ _ _ _ _ _ _).
      discriminate.
    + cbn [bind]. destruct (kBlockSize <? length capture) eqn:Hlt.
      * intros _. apply Nat.ltb_lt in Hlt. auto.
      * cbv beta iota zeta delta [PredictionError fst snd option_map].
        destruct (MainCompute C _ _ _ _ _ _ _), (ShadowCompute C _ _ _ _ _ _ _).
        discriminate.
  - intros [Hoff Hlt]. rewrite Hoff. cbn [andb bind].
    apply Nat.ltb_lt in Hlt. rewrite Hlt. reflexivity.
Qed.

Lemma exceeds_fraction_of_infinity (e2 : float) :
  exceeds_fraction e2 3 10 (S754_infinity false) = false
  /\ exceeds_fraction e2 1 10 (S754_infinity false) = false.
Proof.
  unfold exceeds_fraction. rewrite literal_0_3, literal_0_1.
  change (F64.of_float (S754_infinity false)) with (S754_infinity false).
  unfold F64.gt, F64.mul, SFltb. simpl.
  destruct (F64.of_float e2) as [[|]|[|]| |[|] m e]; split; reflexivity.
Qed.

(** X15: a capture energy that overflows to infinity never sets the flag:
    [0.3 * y2] and [0.1 * y2] are infinite too and no error energy exceeds
    them, so the call leaves the flag as it was. *)
Theorem Process_infinite_energy_keeps_flag st (rb : RenderBuffer C)
    (capture : list float) (rsa : RenderSignalAnalyzer C) (aec : AecState C)
    output (s : bool) :
  length capture = kBlockSize ->
  energy capture = S754_infinity s ->
  exists st' output' dumps,
    Process st rb capture rsa aec output = Done (st', output', dumps)
    /\ converged_filter_ st' = converged_filter_ st.
Proof.
  intros Hlen Hinf.
  destruct (Process_returns st rb capture rsa aec output Hlen)
    as (st' & output' & dumps & HP).
  exists st', output', dumps. split; [exact HP|].
  apply Process_converged in HP. rewrite HP.
  unfold convergence_update. rewrite Hinf.
  destruct (converged_filter_ st); [reflexivity|]. cbn [negb].
  destruct s; [reflexivity|].
  destruct (exceeds_fraction_of_infinity (energy (e_main output'))) as [H3 _].
  destruct (exceeds_fraction_of_infinity (energy (e_shadow output'))) as [_ H1].
  rewrite H3, H1. destruct (S754_infinity false >? energy_floor)%f32; reflexivity.
Qed.

End EdgeFacts.

Lemma Process_out_of_bounds_witness :
  Process (Stub.subtractor false (F32.of_Z 128) (F32.of_Z 64) 3 5 false)
    tt (Stub.zeros 65) tt false Stub.output0
  = Undefined.
Proof.
  apply (Process_out_of_bounds
           (Stub.subtractor false (F32.of_Z 128) (F32.of_Z 64) 3 5 false)
           tt (Stub.zeros 65) tt false Stub.output0).
  split; [reflexivity|]. vm_compute. apply le_n.
Defined.

Lemma Process_infinite_energy_keeps_flag_witness :
  exists st' output' dumps,
    Process (Stub.subtractor true (F32.of_Z 128) (F32.of_Z 64) 3 5 false)
      tt (Stub.block Stub.FLT_MAX) tt false Stub.output0
    = Done (st', output', dumps)
    /\ converged_filter_ st' = false.
Proof.
  apply (Process_infinite_energy_keeps_flag
           (Stub.subtractor true (F32.of_Z 128) (F32.of_Z 64) 3 5 false)
           tt (Stub.block Stub.FLT_MAX) tt false Stub.output0 (s := false)).
  - reflexivity.
  - vm_compute. reflexivity.
Defined.
